(** * starlette_prometheus: the Prometheus middleware for Starlette

    A shallow embedding of [starlette_prometheus/middleware.py]:
    the class [PrometheusMiddleware] with its constructor, its
    [dispatch] coroutine, [get_path_template] and [_is_path_filtered].

    [dispatch] is embedded as a program tree over the operations the
    source performs (metric updates, reads of the monotonic clock, the
    awaited [call_next]); Python's [try/except/else/finally] is a
    transformation of such trees.  The tree is then run against a world
    that holds the metrics registry, the clock and the state of the
    rest of the application, and against an arbitrary downstream
    handler. *)

From Stdlib Require Import ZArith List Ascii String Bool.
From stdpp Require Import base decidable option list strings gmap pretty.

Local Open Scope string_scope.
Local Open Scope list_scope.
Local Open Scope Z_scope.

(** ** The host: clock readings and application state

    [time.perf_counter()] returns floating-point seconds and the source
    subtracts two readings.  The arithmetic of the readings is left to
    the host: any type of readings with any subtraction. *)

Class Host := {
  time : Type;
  time_sub : time -> time -> time;
  app_state : Type
}.

(** ** Starlette: routes, requests, responses, exceptions *)

(** [starlette.routing.Match] *)
Inductive Match := NONE | PARTIAL | FULL.

Definition Match_eqb (a b : Match) : bool :=
  match a, b with
  | NONE, NONE | PARTIAL, PARTIAL | FULL, FULL => true
  | _, _ => false
  end.

(** The ASGI connection scope, as far as routing reads it. *)
Record Scope := {
  scope_type : string;
  scope_method : string;
  scope_path : string
}.

(** A registered route: [route.path] is the pattern string as it was
    registered, [route.matches(scope)] the framework's matcher, which
    answers with a [Match] and a child scope (the path parameters). *)
Record Route := {
  path : string;
  matches : Scope -> Match * list (string * string)
}.

(** What [dispatch] reads of a [Request]: [request.method],
    [request.url.path], [request.scope] and [request.app.routes]. *)
Record Request := {
  method : string;
  url_path : string;
  scope : Scope;
  app_routes : list Route
}.

Record Response := {
  status_code : Z;
  headers : list (string * string);
  body : string
}.

(** A raised Python exception object: [type(e).__name__], whether it is
    an instance of [Exception] (and not only of [BaseException]), its
    [args], and the two attributes that [raise ... from ...] writes. *)
#[local] Set Warnings "-register-all".
Inductive BaseException := mkException {
  type_name : string;
  is_Exception : bool;
  args : list string;
  __cause__ : option BaseException;
  __suppress_context__ : bool
}.
#[local] Set Warnings "+register-all".

(** The outcome of awaiting something that may raise. *)
Inductive Result (A : Type) :=
| Returned (a : A)
| Raised (e : BaseException).
Arguments Returned {A} a.
Arguments Raised {A} e.

(** ** prometheus_client: metrics and the registry *)

Inductive MetricKind := Counter | Gauge | Histogram.

(** A metric as the constructor call describes it: [Counter(name,
    documentation, labelnames)] and likewise for [Gauge], [Histogram]. *)
Record Metric := {
  kind : MetricKind;
  name : string;
  documentation : string;
  labelnames : list string
}.

(** The keyword arguments of [.labels(...)], in the order written. *)
Definition Labels := list (string * string).

(** One time series: the metric's registered name and a label set. *)
Definition Series := (string * list (string * string))%type.

Section WithHost.
Context {H : Host}.

(** The three registry calls of the source, on the child that
    [m.labels] selects for the label set [l]: [.inc()], [.dec()] and
    [.observe(v)]. *)
Inductive MetricOp :=
| Inc (m : Metric) (l : Labels)
| Dec (m : Metric) (l : Labels)
| Observe (m : Metric) (l : Labels) (v : time).

(** The registry: the value of every counter and gauge series, and for
    every histogram series the observations it has received, oldest
    first.  A series exists from the first [.labels(...)] call on. *)
Record Registry := {
  samples : gmap Series Z;
  observations : gmap Series (list time)
}.

Definition sample (r : Registry) (n : string) (l : Labels) : Z :=
  default 0 (samples r !! (n, l)).

Definition observed (r : Registry) (n : string) (l : Labels) : list time :=
  default [] (observations r !! (n, l)).

Definition apply_op (op : MetricOp) (r : Registry) : Registry :=
  match op with
  | Inc m l =>
      {| samples := <[(name m, l) := sample r (name m) l + 1]> (samples r);
         observations := observations r |}
  | Dec m l =>
      {| samples := <[(name m, l) := sample r (name m) l - 1]> (samples r);
         observations := observations r |}
  | Observe m l v =>
      {| samples := samples r;
         observations :=
           <[(name m, l) := observed r (name m) l ++ [v]]> (observations r) |}
  end.

(** ** The world and the programs that run in it *)

Record World := {
  registry : Registry;
  now : time;
  app : app_state
}.

Definition update_registry (f : Registry -> Registry) (w : World) : World :=
  {| registry := f (registry w); now := now w; app := app w |}.

(** A coroutine body: it returns, raises, or performs one operation and
    goes on.  Awaiting [call_next(request)] hands back the downstream
    outcome, a response or a raised exception. *)
Inductive Prog (A : Type) :=
| Ret (a : A)
| Raise (e : BaseException)
| Metric_op (op : MetricOp) (k : Prog A)
| Perf_counter (k : time -> Prog A)
| Await_call_next (request : Request) (k : Result Response -> Prog A).
Arguments Ret {A} a.
Arguments Raise {A} e.
Arguments Metric_op {A} op k.
Arguments Perf_counter {A} k.
Arguments Await_call_next {A} request k.

Fixpoint bind {A B} (p : Prog A) (f : A -> Prog B) : Prog B :=
  match p with
  | Ret a => f a
  | Raise e => Raise e
  | Metric_op op k => Metric_op op (bind k f)
  | Perf_counter k => Perf_counter (fun t => bind (k t) f)
  | Await_call_next r k => Await_call_next r (fun x => bind (k x) f)
  end.

Definition inc (m : Metric) (l : Labels) : Prog unit := Metric_op (Inc m l) (Ret tt).
Definition dec (m : Metric) (l : Labels) : Prog unit := Metric_op (Dec m l) (Ret tt).
Definition observe (m : Metric) (l : Labels) (v : time) : Prog unit :=
  Metric_op (Observe m l v) (Ret tt).
Definition perf_counter : Prog time := Perf_counter Ret.
Definition call_next (request : Request) : Prog Response :=
  Await_call_next request
    (fun r => match r with Returned x => Ret x | Raised e => Raise e end).

(** [try: body / except Exception as e: handler e / else: orelse b].
    Only instances of [Exception] are caught; what the handler or the
    [else] suite raises is not caught again. *)
Fixpoint try_except_else {B C} (body : Prog B)
    (handler : BaseException -> Prog C) (orelse : B -> Prog C) : Prog C :=
  match body with
  | Ret b => orelse b
  | Raise e => if is_Exception e then handler e else Raise e
  | Metric_op op k => Metric_op op (try_except_else k handler orelse)
  | Perf_counter k => Perf_counter (fun t => try_except_else (k t) handler orelse)
  | Await_call_next r k =>
      Await_call_next r (fun x => try_except_else (k x) handler orelse)
  end.

(** [try: body / finally: finalbody]: the final suite runs on every
    way out of the body, and the pending outcome is resumed after it. *)
Fixpoint try_finally {C} (body : Prog C) (finalbody : Prog unit) : Prog C :=
  match body with
  | Ret c => bind finalbody (fun _ => Ret c)
  | Raise e => bind finalbody (fun _ => Raise e)
  | Metric_op op k => Metric_op op (try_finally k finalbody)
  | Perf_counter k => Perf_counter (fun t => try_finally (k t) finalbody)
  | Await_call_next r k => Await_call_next r (fun x => try_finally (k x) finalbody)
  end.

(** [raise e from None]: the same exception object is raised, after
    [e.__cause__ = None] and [e.__suppress_context__ = True]. *)
Definition from_None (e : BaseException) : BaseException :=
  {| type_name := type_name e;
     is_Exception := is_Exception e;
     args := args e;
     __cause__ := None;
     __suppress_context__ := true |}.

End WithHost.

Arguments Ret {H A} a.
Arguments Raise {H A} e.
Arguments Metric_op {H A} op k.
Arguments Perf_counter {H A} k.
Arguments Await_call_next {H A} request k.

Declare Scope prog_scope.
Delimit Scope prog_scope with prog.
Notation "x <- p ;; q" := (bind p (fun x => q))
  (at level 100, p at next level, right associativity) : prog_scope.
Notation "p ;; q" := (bind p (fun _ => q))
  (at level 100, right associativity) : prog_scope.

(** ** The middleware *)

Section Middleware.
Context {H : Host}.

(** The attributes [__init__] sets on the instance.  The wrapped ASGI
    application is the downstream handler that [run] takes below. *)
Record PrometheusMiddleware := {
  filter_unhandled_paths : bool;
  requests : Metric;
  responses : Metric;
  requests_processing_time : Metric;
  exceptions : Metric;
  requests_in_progress : Metric
}.

Definition __init__ (filter_unhandled_paths : bool) (prefix : string)
  : PrometheusMiddleware :=
  {| filter_unhandled_paths := filter_unhandled_paths;
     requests :=
       {| kind := Counter;
          name := prefix +:+ "starlette_requests_total";
          documentation := "Total count of requests by method and path.";
          labelnames := ["method"; "path_template"] |};
     responses :=
       {| kind := Counter;
          name := prefix +:+ "starlette_responses_total";
          documentation := "Total count of responses by method, path and status codes.";
          labelnames := ["method"; "path_template"; "status_code"] |};
     requests_processing_time :=
       {| kind := Histogram;
          name := prefix +:+ "starlette_requests_processing_time_seconds";
          documentation := "Histogram of requests processing time by path (in seconds)";
          labelnames := ["method"; "path_template"] |};
     exceptions :=
       {| kind := Counter;
          name := prefix +:+ "starlette_exceptions_total";
          documentation := "Total count of exceptions raised by path and exception type";
          labelnames := ["method"; "path_template"; "exception_type"] |};
     requests_in_progress :=
       {| kind := Gauge;
          name := prefix +:+ "starlette_requests_in_progress";
          documentation := "Gauge of requests by method and path currently being processed";
          labelnames := ["method"; "path_template"] |} |}.

(** The defaults of the constructor's signature: [False] for
    [filter_unhandled_paths] and the empty string for [prefix]. *)
Definition default_filter_unhandled_paths : bool := false.
Definition default_prefix : string := EmptyString.

(** The [for route in request.app.routes] loop of [get_path_template],
    on the routes still to visit. *)
Fixpoint get_path_template_from (routes : list Route) (request : Request)
  : string * bool :=
  match routes with
  | [] => (url_path request, false)
  | route :: rest =>
      let '(match_, child_scope) := matches route (scope request) in
      if Match_eqb match_ FULL then (path route, true)
      else get_path_template_from rest request
  end.

Definition get_path_template (request : Request) : string * bool :=
  get_path_template_from (app_routes request) request.

Definition _is_path_filtered (self : PrometheusMiddleware)
    (is_handled_path : bool) : bool :=
  filter_unhandled_paths self && negb is_handled_path.

Local Open Scope prog_scope.

Definition dispatch (self : PrometheusMiddleware) (request : Request)
  : Prog Response :=
  let method := method request in
  let '(path_template, is_handled_path) := get_path_template request in
  if _is_path_filtered self is_handled_path then
    call_next request
  else
    inc (requests_in_progress self)
        [("method", method); ("path_template", path_template)] ;;
    inc (requests self)
        [("method", method); ("path_template", path_template)] ;;
    response <-
      try_finally
        (try_except_else
           (before_time <- perf_counter ;;
            response <- call_next request ;;
            after_time <- perf_counter ;;
            Ret (before_time, response, after_time))
           (fun e =>
              inc (exceptions self)
                  [("method", method); ("path_template", path_template);
                   ("exception_type", type_name e)] ;;
              Raise (from_None e))
           (fun '(before_time, response, after_time) =>
              observe (requests_processing_time self)
                  [("method", method); ("path_template", path_template)]
                  (time_sub after_time before_time) ;;
              inc (responses self)
                  [("method", method); ("path_template", path_template);
                   ("status_code", pretty (status_code response))] ;;
              Ret response))
        (dec (requests_in_progress self)
             [("method", method); ("path_template", path_template)]) ;;
    Ret response.

(** ** Running a program *)

(** What a run performs, in order. *)
Inductive Event :=
| Ev_metric (op : MetricOp)
| Ev_perf_counter (t : time)
| Ev_call_next (request : Request).

(** The downstream handler takes the request and the world as it is
    when it is called, and hands back its outcome and the world as it
    leaves it; it is free to change all of it, the registry too. *)
Definition Downstream := Request -> World -> Result Response * World.

Fixpoint run {A} (downstream : Downstream) (p : Prog A) (w : World)
  : Result A * World * list Event :=
  match p with
  | Ret a => (Returned a, w, [])
  | Raise e => (Raised e, w, [])
  | Metric_op op k =>
      let '(r, w', tr) := run downstream k (update_registry (apply_op op) w) in
      (r, w', Ev_metric op :: tr)
  | Perf_counter k =>
      let '(r, w', tr) := run downstream (k (now w)) w in
      (r, w', Ev_perf_counter (now w) :: tr)
  | Await_call_next request k =>
      let '(x, w1) := downstream request w in
      let '(r, w', tr) := run downstream (k x) w1 in
      (r, w', Ev_call_next request :: tr)
  end.

End Middleware.

(** ** Reading a run *)

Section Reading.
Context {H : Host}.

Definition run_result {A} (x : Result A * World * list Event) : Result A := x.1.1.
Definition run_world {A} (x : Result A * World * list Event) : World := x.1.2.
Definition run_trace {A} (x : Result A * World * list Event) : list Event := x.2.

(** The event is [.inc()] (resp. [.dec()]) on the series [n{l}]. *)
Definition increments (n : string) (l : Labels) (ev : Event) : bool :=
  match ev with
  | Ev_metric (Inc m l') => bool_decide (name m = n) && bool_decide (l' = l)
  | _ => false
  end.

Definition decrements (n : string) (l : Labels) (ev : Event) : bool :=
  match ev with
  | Ev_metric (Dec m l') => bool_decide (name m = n) && bool_decide (l' = l)
  | _ => false
  end.

Definition is_call_next (ev : Event) : bool :=
  match ev with Ev_call_next _ => true | _ => false end.

Definition is_metric (ev : Event) : bool :=
  match ev with Ev_metric _ => true | _ => false end.

Definition count (f : Event -> bool) (tr : list Event) : nat :=
  length (List.filter f tr).

(** The registry after the metric operations of a trace, in order. *)
Definition replay (tr : list Event) (r : Registry) : Registry :=
  fold_left (fun r ev => match ev with Ev_metric op => apply_op op r | _ => r end)
            tr r.

(** The label set [dispatch] computes for a request: its method and
    the template that [get_path_template] resolves. *)
Definition method_path (request : Request) : Labels :=
  [("method", method request);
   ("path_template", (get_path_template request).1)].

End Reading.

(** ** Renaming the metrics of a program *)

Section Renaming.
Context {H : Host}.

Definition with_prefix (prefix : string) (m : Metric) : Metric :=
  {| kind := kind m;
     name := prefix +:+ name m;
     documentation := documentation m;
     labelnames := labelnames m |}.

(** The same operation, on the same label set and with the same
    observed value, on the metric [f m] instead of [m]. *)
Definition on_metric (f : Metric -> Metric) (op : MetricOp) : MetricOp :=
  match op with
  | Inc m l => Inc (f m) l
  | Dec m l => Dec (f m) l
  | Observe m l v => Observe (f m) l v
  end.

(** [renamed f p q]: [q] is [p] with every metric [m] replaced by
    [f m]; the control flow, the label sets, the observed values, the
    requests handed downstream, the results and the raised exceptions
    are those of [p]. *)
Inductive renamed (f : Metric -> Metric) {A : Type} : Prog A -> Prog A -> Prop :=
| renamed_Ret a : renamed f (Ret a) (Ret a)
| renamed_Raise e : renamed f (Raise e) (Raise e)
| renamed_Metric_op op k k' :
    renamed f k k' ->
    renamed f (Metric_op op k) (Metric_op (on_metric f op) k')
| renamed_Perf_counter k k' :
    (forall t, renamed f (k t) (k' t)) ->
    renamed f (Perf_counter k) (Perf_counter k')
| renamed_Await_call_next request k k' :
    (forall x, renamed f (k x) (k' x)) ->
    renamed f (Await_call_next request k) (Await_call_next request k').

(** The event of the renamed operation. *)
Definition on_event (f : Metric -> Metric) (ev : Event) : Event :=
  match ev with
  | Ev_metric op => Ev_metric (on_metric f op)
  | Ev_perf_counter t => Ev_perf_counter t
  | Ev_call_next request => Ev_call_next request
  end.

(** A downstream handler that does not look at the registry: its
    outcome, and the clock and application state it leaves, depend on
    the clock and application state it finds. *)
Definition registry_blind (downstream : Downstream) : Prop :=
  forall request w1 w2,
    now w1 = now w2 -> app w1 = app w2 ->
    (downstream request w1).1 = (downstream request w2).1 /\
    now (downstream request w1).2 = now (downstream request w2).2 /\
    app (downstream request w1).2 = app (downstream request w2).2.

End Renaming.

(** ** A test application

    The applications of [tests/test_end_to_end.py]: routes [/metrics/],
    [/foo/], [/bar/] and [/foo/{bar}/], and two more views that raise,
    [/chained/] and [/cancelled/]; clock readings in whole ticks. *)

Module Fixture.

#[export] Instance host : Host :=
  {| time := Z; time_sub := Z.sub; app_state := list string |}.

(** [/foo/] followed by one non-empty path segment and a final slash. *)
Fixpoint segment_slash (seen : bool) (s : string) : bool :=
  match s with
  | EmptyString => false
  | String c rest =>
      if Ascii.eqb c "/"%char
      then seen && bool_decide (rest = EmptyString)
      else segment_slash true rest
  end.

Definition foo_bar_pattern (p : string) : bool :=
  String.prefix "/foo/" p && segment_slash false (String.substring 5 (String.length p) p).

(** A route as Starlette's [Route.matches] treats it: no match unless
    the path fits the pattern, a partial match when only the method is
    not among the route's methods. *)
Definition route (pattern : string) (fits : string -> bool)
    (methods : list string) : Route :=
  {| path := pattern;
     matches := fun s =>
       if bool_decide (scope_type s = "http") && fits (scope_path s) then
         if bool_decide (scope_method s ∈ methods) then (FULL, []) else (PARTIAL, [])
       else (NONE, []) |}.

Definition exactly (pattern : string) : Route :=
  route pattern (fun p => bool_decide (p = pattern)) ["GET"; "HEAD"].

Definition routes : list Route :=
  [ exactly "/metrics/";
    exactly "/foo/";
    exactly "/bar/";
    route "/foo/{bar}/" foo_bar_pattern ["GET"; "HEAD"];
    exactly "/chained/";
    exactly "/cancelled/" ].

Definition request (verb target : string) (rs : list Route) : Request :=
  {| method := verb;
     url_path := target;
     scope := {| scope_type := "http"; scope_method := verb; scope_path := target |};
     app_routes := rs |}.

Definition get (target : string) : Request := request "GET" target routes.

(** The application of the filter test registers [/metrics/] only. *)
Definition get_metrics_only (target : string) : Request :=
  request "GET" target [exactly "/metrics/"].

Definition GET (template : string) : Labels :=
  [("method", "GET"); ("path_template", template)].

Definition plain_text (status : Z) (text : string) : Response :=
  {| status_code := status;
     headers := [("content-type", "text/plain; charset=utf-8")];
     body := text |}.

Definition ValueError (message : string) : BaseException :=
  {| type_name := "ValueError"; is_Exception := true; args := [message];
     __cause__ := None; __suppress_context__ := false |}.

Definition KeyError (message : string) : BaseException :=
  {| type_name := "KeyError"; is_Exception := true; args := [message];
     __cause__ := None; __suppress_context__ := false |}.

(** [raise ValueError(message) from KeyError(key)] *)
Definition ValueError_from_KeyError (message key : string) : BaseException :=
  {| type_name := "ValueError"; is_Exception := true; args := [message];
     __cause__ := Some (KeyError key); __suppress_context__ := true |}.

(** [asyncio.CancelledError] derives from [BaseException] only. *)
Definition CancelledError : BaseException :=
  {| type_name := "CancelledError"; is_Exception := false; args := [];
     __cause__ := None; __suppress_context__ := false |}.

(** The handler spends [d] ticks and notes its visit. *)
Definition spend (d : Z) (note : string) (w : World) : World :=
  {| registry := registry w; now := now w + d; app := app w ++ [note] |}.

(** The downstream application: the views of the test module, the two
    other views that raise, and the framework's 404 for the rest.  The
    [/metrics/] view answers with the in-flight gauge of its own series
    as it stands while the view runs. *)
Definition application : Downstream := fun r w =>
  let p := url_path r in
  if bool_decide (p = "/foo/") then
    (Returned (plain_text 200 "Foo"), spend 7 "foo" w)
  else if bool_decide (p = "/bar/") then
    (Raised (ValueError "bar"), spend 3 "bar" w)
  else if bool_decide (p = "/chained/") then
    (Raised (ValueError_from_KeyError "bar" "k"), spend 3 "chained" w)
  else if bool_decide (p = "/cancelled/") then
    (Raised CancelledError, spend 2 "cancelled" w)
  else if bool_decide (p = "/metrics/") then
    (Returned (plain_text 200
       (pretty (sample (registry w) "starlette_requests_in_progress"
                  [("method", method r); ("path_template", "/metrics/")]))),
     spend 1 "metrics" w)
  else if foo_bar_pattern p then
    (Returned (plain_text 200 ("Foo: " +:+ String.substring 5 (String.length p - 6) p)),
     spend 4 "foobar" w)
  else
    (Returned (plain_text 404 "Not Found"), spend 1 "not found" w).

(** The three ways the test module adds the middleware: with the
    defaults, with [filter_unhandled_paths=True], with a prefix. *)
Definition middleware : PrometheusMiddleware :=
  __init__ default_filter_unhandled_paths default_prefix.
Definition filtering : PrometheusMiddleware := __init__ true default_prefix.
Definition prefixed : PrometheusMiddleware :=
  __init__ default_filter_unhandled_paths "test_".

Definition start : World :=
  {| registry := {| samples := ∅; observations := ∅ |}; now := 100; app := [] |}.

End Fixture.

(** ** Applications around [dispatch] *)

Section Around.
Context {H : Host}.

(** The five metrics an instance holds, in the order [__init__] builds
    them. *)
Definition metrics (self : PrometheusMiddleware) : list Metric :=
  [requests self; responses self; requests_processing_time self;
   exceptions self; requests_in_progress self].

Definition op_metric (op : MetricOp) : Metric :=
  match op with Inc m _ | Dec m _ | Observe m _ _ => m end.

Definition op_labels (op : MetricOp) : Labels :=
  match op with Inc _ l | Dec _ l | Observe _ l _ => l end.

(** The series an operation writes. *)
Definition op_series (op : MetricOp) : Series :=
  (name (op_metric op), op_labels op).

(** What [prometheus_client] accepts without raising: the keywords of
    [.labels(...)] are the label names the metric was built with, a
    [Counter] is incremented, a [Gauge] incremented or decremented, a
    [Histogram] observed. *)
Definition accepted (op : MetricOp) : bool :=
  bool_decide ((op_labels op).*1 = labelnames (op_metric op)) &&
  match op, kind (op_metric op) with
  | Inc _ _, Counter | Inc _ _, Gauge => true
  | Dec _ _, Gauge => true
  | Observe _ _ _, Histogram => true
  | _, _ => false
  end.



Definition event_accepted (ev : Event) : bool :=
  match ev with Ev_metric op => accepted op | _ => true end.

(** [dispatch] records the request: it does not take the filter
    branch. *)
Definition recorded (self : PrometheusMiddleware) (request : Request) : bool :=
  negb (_is_path_filtered self (get_path_template request).2).

(** A downstream handler that leaves the registry as it finds it. *)
Definition quiet (downstream : Downstream) : Prop :=
  forall request w, registry (downstream request w).2 = registry w.

(** The application made of the middleware in front of a downstream
    application: what the next middleware out, or the server, calls. *)
Definition behind (self : PrometheusMiddleware) (downstream : Downstream)
  : Downstream :=
  fun request w =>
    let x := run downstream (dispatch self request) w in
    (run_result x, run_world x).

(** The same request once the application has registered more
    routes. *)
Definition registering (more : list Route) (request : Request) : Request :=
  {| method := method request;
     url_path := url_path request;
     scope := scope request;
     app_routes := app_routes request ++ more |}.

(** A client that sends requests one after the other, as the test
    client does; the world after the last of them. *)
Fixpoint serve (self : PrometheusMiddleware) (downstream : Downstream)
    (requests : list Request) (w : World) : World :=
  match requests with
  | [] => w
  | request :: rest =>
      serve self downstream rest
        (run_world (run downstream (dispatch self request) w))
  end.

(** The requests of a list that are recorded under the label set [l]. *)
Definition recorded_under (self : PrometheusMiddleware) (l : Labels)
    (requests : list Request) : list Request :=
  List.filter
    (fun request => recorded self request && bool_decide (method_path request = l))
    requests.

End Around.

(** A host whose clock counts whole ticks. *)
Definition tick_host (state : Type) : Host :=
  {| time := Z; time_sub := Z.sub; app_state := state |}.

(** The names the five metrics have without a prefix. *)
Definition base_names : list string :=
  ["starlette_requests_total"; "starlette_responses_total";
   "starlette_requests_processing_time_seconds";
   "starlette_exceptions_total"; "starlette_requests_in_progress"].

(** [s] without its first [n] characters. *)
Fixpoint string_drop (n : nat) (s : string) : string :=
  match n, s with
  | O, _ => s
  | S n', String _ s' => string_drop n' s'
  | S _, EmptyString => EmptyString
  end.

(** More of the test application. *)
Module Scenario.
Import Fixture.

(** A view that answers 200 and touches nothing. *)
Definition always_ok : Downstream :=
  fun _ w => (Returned (plain_text 200 "ok"), w).

(** A second instance, registered under another prefix. *)
Definition outer : PrometheusMiddleware :=
  __init__ default_filter_unhandled_paths "outer_".

End Scenario.

(** * Properties *)

Section Facts.
Context {H : Host}.

(** ** The registry operations *)

Lemma prefixed_inj (prefix a b : string) :
  prefix +:+ a = prefix +:+ b -> a = b.
Proof. apply (inj (String.app prefix)). Qed.

Lemma lookup_samples_Inc r m l k :
  samples (apply_op (Inc m l) r) !! k =
  if decide ((name m, l) = k) then Some (sample r (name m) l + 1)
  else samples r !! k.
Proof. cbn. apply lookup_insert. Qed.

Lemma lookup_samples_Dec r m l k :
  samples (apply_op (Dec m l) r) !! k =
  if decide ((name m, l) = k) then Some (sample r (name m) l - 1)
  else samples r !! k.
Proof. cbn. apply lookup_insert. Qed.

Lemma sample_Inc r m l n l' :
  sample (apply_op (Inc m l) r) n l' =
  if decide ((name m, l) = (n, l')) then sample r n l' + 1 else sample r n l'.
Proof.
  unfold sample at 1. rewrite lookup_samples_Inc.
  case_decide as E; [injection E as -> ->|]; reflexivity.
Qed.

Lemma sample_Dec r m l n l' :
  sample (apply_op (Dec m l) r) n l' =
  if decide ((name m, l) = (n, l')) then sample r n l' - 1 else sample r n l'.
Proof.
  unfold sample at 1. rewrite lookup_samples_Dec.
  case_decide as E; [injection E as -> ->|]; reflexivity.
Qed.

Lemma sample_Observe r m l v n l' :
  sample (apply_op (Observe m l v) r) n l' = sample r n l'.
Proof. reflexivity. Qed.

Lemma observed_Inc r m l n l' :
  observed (apply_op (Inc m l) r) n l' = observed r n l'.
Proof. reflexivity. Qed.

Lemma observed_Dec r m l n l' :
  observed (apply_op (Dec m l) r) n l' = observed r n l'.
Proof. reflexivity. Qed.

Lemma observations_Inc r m l :
  observations (apply_op (Inc m l) r) = observations r.
Proof. reflexivity. Qed.

Lemma observations_Dec r m l :
  observations (apply_op (Dec m l) r) = observations r.
Proof. reflexivity. Qed.

Lemma samples_Observe r m l v :
  samples (apply_op (Observe m l v) r) = samples r.
Proof. reflexivity. Qed.

Lemma observed_Observe r m l v n l' :
  observed (apply_op (Observe m l v) r) n l' =
  if decide ((name m, l) = (n, l')) then observed r n l' ++ [v] else observed r n l'.
Proof.
  unfold observed at 1. cbn. rewrite lookup_insert.
  case_decide as E; [injection E as -> ->|]; reflexivity.
Qed.

(** ** The route scan *)

Lemma get_path_template_from_unmatched routes request :
  Forall (fun route => (matches route (scope request)).1 <> FULL) routes ->
  get_path_template_from routes request = (url_path request, false).
Proof.
  induction 1 as [|route rest Hroute _ IH]; cbn; [reflexivity|].
  destruct (matches route (scope request)) as [[] child_scope]; cbn in *;
    congruence.
Qed.

Lemma get_path_template_from_first routes request :
  (exists before route after,
      routes = before ++ route :: after /\
      Forall (fun r => (matches r (scope request)).1 <> FULL) before /\
      (matches route (scope request)).1 = FULL /\
      get_path_template_from routes request = (path route, true)) \/
  (Forall (fun r => (matches r (scope request)).1 <> FULL) routes /\
   get_path_template_from routes request = (url_path request, false)).
Proof.
  induction routes as [|route rest IH]; cbn.
  - right. split; [constructor | reflexivity].
  - destruct (matches route (scope request)) as [m child_scope] eqn:Hm.
    destruct m; cbn.
    + destruct IH as [(before & r & after & -> & Hb & Hr & E) | [Hall E]].
      * left. exists (route :: before), r, after.
        repeat split; [| assumption | assumption].
        constructor; [rewrite Hm; discriminate | assumption].
      * right. split; [|assumption].
        constructor; [rewrite Hm; discriminate | assumption].
    + destruct IH as [(before & r & after & -> & Hb & Hr & E) | [Hall E]].
      * left. exists (route :: before), r, after.
        repeat split; [| assumption | assumption].
        constructor; [rewrite Hm; discriminate | assumption].
      * right. split; [|assumption].
        constructor; [rewrite Hm; discriminate | assumption].
    + left. exists [], route, rest. rewrite Hm.
      repeat split. constructor.
Qed.

End Facts.

Section Dispatch.
Context {H : Host}.
Implicit Types (self : PrometheusMiddleware) (request : Request)
  (downstream : Downstream) (w : World).

(** ** The two ways through [dispatch] *)

(** A filtered request: the downstream call and nothing else. *)
Lemma run_dispatch_filtered self request downstream w :
  _is_path_filtered self (get_path_template request).2 = true ->
  run downstream (dispatch self request) w =
  ((downstream request w).1, (downstream request w).2, [Ev_call_next request]).
Proof.
  intros Hf. unfold dispatch.
  destruct (get_path_template request) as [path_template is_handled_path].
  cbn in Hf. rewrite Hf. cbn.
  destruct (downstream request w) as [[response|e] w']; reflexivity.
Qed.

(** Any other request, by the outcome of the downstream call. *)
Lemma run_dispatch_recorded self request downstream w :
  _is_path_filtered self (get_path_template request).2 = false ->
  let l := method_path request in
  let w_in :=
    update_registry (apply_op (Inc (requests self) l))
      (update_registry (apply_op (Inc (requests_in_progress self) l)) w) in
  run downstream (dispatch self request) w =
  match downstream request w_in with
  | (Returned response, w_out) =>
      let elapsed := time_sub (now w_out) (now w_in) in
      let l_status := l ++ [("status_code", pretty (status_code response))] in
      (Returned response,
       update_registry (apply_op (Dec (requests_in_progress self) l))
         (update_registry (apply_op (Inc (responses self) l_status))
            (update_registry
               (apply_op (Observe (requests_processing_time self) l elapsed))
               w_out)),
       [Ev_metric (Inc (requests_in_progress self) l);
        Ev_metric (Inc (requests self) l);
        Ev_perf_counter (now w_in);
        Ev_call_next request;
        Ev_perf_counter (now w_out);
        Ev_metric (Observe (requests_processing_time self) l elapsed);
        Ev_metric (Inc (responses self) l_status);
        Ev_metric (Dec (requests_in_progress self) l)])
  | (Raised e, w_out) =>
      let l_type := l ++ [("exception_type", type_name e)] in
      if is_Exception e then
        (Raised (from_None e),
         update_registry (apply_op (Dec (requests_in_progress self) l))
           (update_registry (apply_op (Inc (exceptions self) l_type)) w_out),
         [Ev_metric (Inc (requests_in_progress self) l);
          Ev_metric (Inc (requests self) l);
          Ev_perf_counter (now w_in);
          Ev_call_next request;
          Ev_metric (Inc (exceptions self) l_type);
          Ev_metric (Dec (requests_in_progress self) l)])
      else
        (Raised e,
         update_registry (apply_op (Dec (requests_in_progress self) l)) w_out,
         [Ev_metric (Inc (requests_in_progress self) l);
          Ev_metric (Inc (requests self) l);
          Ev_perf_counter (now w_in);
          Ev_call_next request;
          Ev_metric (Dec (requests_in_progress self) l)])
  end.
Proof.
  intros Hf l w_in. subst l w_in. unfold dispatch, method_path.
  destruct (get_path_template request) as [path_template is_handled_path].
  cbn in Hf. rewrite Hf. cbn.
  match goal with |- context [downstream request ?x] =>
    destruct (downstream request x) as [[response|e] w_out] end; cbn;
    [reflexivity|].
  destruct (is_Exception e); reflexivity.
Qed.

(** ** The in-flight gauge *)

(** Two metrics of one middleware never share a registered name, and a
    label set with a third label is not the two-label set. *)
Ltac distinct_series :=
  match goal with
  | E : _ +:+ _ = _ +:+ _ |- _ => apply prefixed_inj in E; discriminate E
  | E : (_, _) = (_, _) |- _ => injection E; clear E; intros; distinct_series
  | E : _ ++ [_] = _ |- _ => discriminate E
  | E : _ = _ ++ [_] |- _ => discriminate E
  | E : _ :: _ = _ :: _ |- _ => discriminate E
  | E : ?a <> ?a |- _ => destruct (E eq_refl)
  | E : ~ (?a = ?a) |- _ => destruct (E eq_refl)
  end.

Ltac count_events :=
  unfold count, run_trace, increments, decrements, is_call_next, method_path;
  cbn;
  repeat (case_bool_decide; cbn; try distinct_series);
  try reflexivity.

(** Reading a series of the registry after a run of [dispatch]. *)
Ltac read_registry :=
  unfold run_world, run_result, run_trace, update_registry, method_path;
  cbn [fst snd registry now app __init__ name requests responses
       requests_processing_time exceptions requests_in_progress];
  repeat (first [ rewrite sample_Inc | rewrite sample_Dec
                 | rewrite sample_Observe | rewrite observed_Observe
                 | rewrite observed_Inc | rewrite observed_Dec
                 | rewrite observations_Inc | rewrite observations_Dec
                 | rewrite samples_Observe
                 | rewrite lookup_samples_Inc | rewrite lookup_samples_Dec ];
          cbn [name]);
  repeat (case_decide; try distinct_series).

(** C1: a request that is not filtered increments the in-flight gauge
    of its [(method, path_template)] series exactly once, before the
    downstream handler is called (the handler sees the gauge one
    higher), and decrements it exactly once after the handler is done,
    whether the handler returned or raised. *)
Theorem in_progress_inc_once_dec_once
    (filter : bool) (prefix : string) request downstream w :
  _is_path_filtered (__init__ filter prefix) (get_path_template request).2 = false ->
  let gauge := name (requests_in_progress (__init__ filter prefix)) in
  let l := method_path request in
  let x := run downstream (dispatch (__init__ filter prefix) request) w in
  count (increments gauge l) (run_trace x) = 1%nat /\
  count (decrements gauge l) (run_trace x) = 1%nat /\
  exists w_in r0 w_out,
    downstream request w_in = (r0, w_out) /\
    sample (registry w_in) gauge l = sample (registry w) gauge l + 1 /\
    sample (registry (run_world x)) gauge l = sample (registry w_out) gauge l - 1 /\
    match r0 with
    | Returned response => run_result x = Returned response
    | Raised e => exists e', run_result x = Raised e'
    end.
Proof.
  intros Hf gauge l x. subst x.
  pose proof (run_dispatch_recorded _ _ downstream w Hf) as E. cbn zeta in E.
  fold l in E.
  destruct (downstream request _) as [r0 w_out] eqn:Hd.
  rewrite E. clear E.
  destruct r0 as [response|e]; [|destruct (is_Exception e) eqn:He].
  all: split; [subst gauge l; count_events|].
  all: split; [subst gauge l; count_events|].
  all: eexists _, _, w_out; split; [exact Hd|].
  all: subst gauge; read_registry.
  all: repeat split; eauto; lia.
Qed.

(** C7: in the run of a request that is not filtered the events are in
    one sequence, the downstream call is in it once, the increment of
    the in-flight gauge lies before the call and the decrement after
    it. *)
Theorem gauge_inc_then_call_then_dec
    (filter : bool) (prefix : string) request downstream w :
  _is_path_filtered (__init__ filter prefix) (get_path_template request).2 = false ->
  let gauge := name (requests_in_progress (__init__ filter prefix)) in
  let l := method_path request in
  let x := run downstream (dispatch (__init__ filter prefix) request) w in
  exists before after,
    run_trace x = before ++ Ev_call_next request :: after /\
    count (increments gauge l) before = 1%nat /\
    count (decrements gauge l) before = 0%nat /\
    count is_call_next before = 0%nat /\
    count (increments gauge l) after = 0%nat /\
    count (decrements gauge l) after = 1%nat /\
    count is_call_next after = 0%nat.
Proof.
  intros Hf gauge l x. subst x.
  pose proof (run_dispatch_recorded _ _ downstream w Hf) as E. cbn zeta in E.
  fold l in E.
  destruct (downstream request _) as [r0 w_out] eqn:Hd.
  rewrite E. clear E.
  destruct r0 as [response|e]; [|destruct (is_Exception e) eqn:He].
  all: eexists [_; _; _], _; split; [reflexivity|].
  all: subst gauge l; repeat split; count_events.
Qed.

(** ** The route scan *)

(** C2: [get_path_template] goes through [request.app.routes] in
    order and answers with the pattern of the first route whose match
    is [FULL], and [True]; when no route matches in full it answers
    with the raw path of the request, and [False]. *)
Theorem get_path_template_first_full_match request :
  (exists before route after,
      app_routes request = before ++ route :: after /\
      Forall (fun r => (matches r (scope request)).1 <> FULL) before /\
      (matches route (scope request)).1 = FULL /\
      get_path_template request = (path route, true)) \/
  (Forall (fun r => (matches r (scope request)).1 <> FULL) (app_routes request) /\
   get_path_template request = (url_path request, false)).
Proof. apply get_path_template_from_first. Qed.

(** ** Filtering *)

(** C3: with [filter_unhandled_paths=True] a request that no route
    matched is handed to the downstream handler and that is all: the
    result and the world are the handler's, no metric operation takes
    place.  A request that a route matched is not filtered and is
    recorded as without the option, under the pattern of a route that
    matches it in full: the gauge and the requests counter of
    [(method, pattern)] are incremented once, and the handler is called
    in the world so changed; the gauge is decremented once after it;
    a response is returned as it is, its time observed and the
    responses counter of its status incremented; an instance of
    [Exception] is counted under its type name and raised again by
    [raise e from None], any other exception propagates as it is. *)
Theorem filter_unhandled_paths_bypasses_metrics (prefix : string) request :
  ((get_path_template request).2 = false ->
   forall downstream w,
     run downstream (dispatch (__init__ true prefix) request) w =
     ((downstream request w).1, (downstream request w).2,
      [Ev_call_next request])) /\
  ((get_path_template request).2 = true ->
   _is_path_filtered (__init__ true prefix) (get_path_template request).2 = false /\
   dispatch (__init__ true prefix) request =
   dispatch (__init__ false prefix) request /\
   (exists route,
      route ∈ app_routes request /\
      (matches route (scope request)).1 = FULL /\
      method_path request =
        [("method", method request); ("path_template", path route)]) /\
   forall downstream w,
     let self := __init__ true prefix in
     let l := method_path request in
     let w_in :=
       {| registry :=
            apply_op (Inc (requests self) l)
              (apply_op (Inc (requests_in_progress self) l) (registry w));
          now := now w;
          app := app w |} in
     let r0 := (downstream request w_in).1 in
     let w_out := (downstream request w_in).2 in
     let x := run downstream (dispatch self request) w in
     let final := registry (run_world x) in
     count (increments (name (requests_in_progress self)) l) (run_trace x) = 1%nat /\
     count (decrements (name (requests_in_progress self)) l) (run_trace x) = 1%nat /\
     count (increments (name (requests self)) l) (run_trace x) = 1%nat /\
     sample (registry w_in) (name (requests_in_progress self)) l =
       sample (registry w) (name (requests_in_progress self)) l + 1 /\
     sample (registry w_in) (name (requests self)) l =
       sample (registry w) (name (requests self)) l + 1 /\
     now (run_world x) = now w_out /\
     app (run_world x) = app w_out /\
     sample final (name (requests_in_progress self)) l =
       sample (registry w_out) (name (requests_in_progress self)) l - 1 /\
     match r0 with
     | Returned response =>
         let l_status := l ++ [("status_code", pretty (status_code response))] in
         run_result x = Returned response /\
         observed final (name (requests_processing_time self)) l =
           observed (registry w_out) (name (requests_processing_time self)) l
             ++ [time_sub (now w_out) (now w)] /\
         sample final (name (responses self)) l_status =
           sample (registry w_out) (name (responses self)) l_status + 1
     | Raised e =>
         let l_type := l ++ [("exception_type", type_name e)] in
         if is_Exception e then
           run_result x = Raised (from_None e) /\
           sample final (name (exceptions self)) l_type =
             sample (registry w_out) (name (exceptions self)) l_type + 1
         else
           run_result x = Raised e /\
           forall l', samples final !! (name (exceptions self), l') =
                      samples (registry w_out) !! (name (exceptions self), l')
     end).
Proof.
  split.
  - intros Hm downstream w. apply run_dispatch_filtered.
    rewrite Hm. reflexivity.
  - intros Hm.
    assert (Hf : _is_path_filtered (__init__ true prefix)
                   (get_path_template request).2 = false)
      by (rewrite Hm; reflexivity).
    split; [exact Hf|].
    split.
    { unfold dispatch.
      destruct (get_path_template request) as [path_template is_handled_path].
      cbn in Hm. subst is_handled_path. reflexivity. }
    split.
    { destruct (get_path_template_from_first (app_routes request) request)
        as [(before & route & after & Hroutes & _ & Hfull & Ht) | [_ Ht]].
      - exists route. split; [rewrite Hroutes; set_solver|].
        split; [exact Hfull|].
        unfold method_path, get_path_template. rewrite Ht. reflexivity.
      - unfold get_path_template in Hm. rewrite Ht in Hm. discriminate Hm. }
    intros downstream w self l w_in r0 w_out x final.
    pose proof (run_dispatch_recorded self request downstream w Hf) as E.
    cbn zeta in E. fold l in E.
    change (update_registry (apply_op (Inc (requests self) l))
              (update_registry (apply_op (Inc (requests_in_progress self) l)) w))
      with w_in in E.
    fold x in E. subst final r0 w_out.
    destruct (downstream request w_in) as [r0 w_out] eqn:Hd.
    cbn [fst snd]. rewrite E. clear E x.
    subst w_in self.
    destruct r0 as [response|e]; [|destruct (is_Exception e) eqn:He].
    all: split; [subst l; count_events|].
    all: split; [subst l; count_events|].
    all: split; [subst l; count_events|].
    all: split; [read_registry; lia|].
    all: split; [read_registry; lia|].
    all: split; [reflexivity|].
    all: split; [reflexivity|].
    all: split; [read_registry; reflexivity|].
    + split; [reflexivity|].
      split; [read_registry; reflexivity|].
      read_registry; reflexivity.
    + split; [reflexivity|]. read_registry; reflexivity.
    + split; [reflexivity|]. intros l'. read_registry. reflexivity.
Qed.

(** C10: with [filter_unhandled_paths=True], when no route matched and
    the downstream handler raises, the caller gets that very exception
    and the world as the handler left it; the run consists of the
    downstream call alone, so no counter and no gauge is touched. *)
Theorem filtered_error_propagates_unrecorded
    (prefix : string) request downstream w e w_out :
  (get_path_template request).2 = false ->
  downstream request w = (Raised e, w_out) ->
  let x := run downstream (dispatch (__init__ true prefix) request) w in
  x = (Raised e, w_out, [Ev_call_next request]) /\
  count is_metric (run_trace x) = 0%nat /\
  registry (run_world x) = registry w_out.
Proof.
  intros Hm Hd x. subst x.
  rewrite run_dispatch_filtered by (rewrite Hm; reflexivity).
  rewrite Hd. repeat split.
Qed.

(** ** Recording the outcome *)



(** ** Requests that no route matched *)

(** C8: with [filter_unhandled_paths] at its default, a request that no route
    matches in full is not filtered and its template is the raw path
    of the request.  It is recorded as any request is: a request of
    the same method that a route does match, under a pattern that
    reads like that raw path, ends with the same result, the same
    world and the same metric operations when the downstream handler
    treats both alike; and the requests counter of
    [(method, raw path)] is incremented once. *)
Theorem unmatched_recorded_under_raw_path (prefix : string) request :
  Forall (fun route => (matches route (scope request)).1 <> FULL)
         (app_routes request) ->
  let self := __init__ default_filter_unhandled_paths prefix in
  let l := [("method", method request); ("path_template", url_path request)] in
  get_path_template request = (url_path request, false) /\
  _is_path_filtered self (get_path_template request).2 = false /\
  method_path request = l /\
  forall downstream w,
    let x := run downstream (dispatch self request) w in
    count (increments (name (requests self)) l) (run_trace x) = 1%nat /\
    forall request' downstream',
      method request' = method request ->
      get_path_template request' = (url_path request, true) ->
      (forall w0, downstream' request' w0 = downstream request w0) ->
      let x' := run downstream' (dispatch self request') w in
      run_result x = run_result x' /\
      run_world x = run_world x' /\
      List.filter is_metric (run_trace x) = List.filter is_metric (run_trace x').
Proof.
  intros Hall self l.
  assert (Ht : get_path_template request = (url_path request, false))
    by (apply get_path_template_from_unmatched, Hall).
  assert (Hl : method_path request = l)
    by (unfold method_path; rewrite Ht; reflexivity).
  assert (Hf : _is_path_filtered self (get_path_template request).2 = false)
    by reflexivity.
  split; [exact Ht|]. split; [exact Hf|]. split; [exact Hl|].
  intros downstream w x.
  pose proof (run_dispatch_recorded _ _ downstream w Hf) as E. cbn zeta in E.
  rewrite Hl in E. fold x in E.
  split.
  - rewrite E.
    destruct (downstream request _) as [[response|e] w_out];
      [|destruct (is_Exception e)]; subst self l; count_events.
  - intros request' downstream' Hmethod Ht' Hsame x'.
    assert (Hf' : _is_path_filtered self (get_path_template request').2 = false)
      by reflexivity.
    assert (Hl' : method_path request' = l)
      by (unfold method_path; rewrite Ht', Hmethod; reflexivity).
    pose proof (run_dispatch_recorded _ _ downstream' w Hf') as E'.
    cbn zeta in E'. rewrite Hl' in E'. fold x' in E'.
    rewrite E, E', Hsame.
    destruct (downstream request _) as [[response|e] w_out];
      [|destruct (is_Exception e)]; repeat split.
Qed.

(** ** What [dispatch] leaves alone *)

(** Every call event of a trace that is written out is the one call. *)
Ltac the_call Hi :=
  unfold run_trace in Hi; cbn [snd In] in Hi;
  repeat (destruct Hi as [Hi|Hi];
          [first [discriminate Hi | injection Hi as <-; reflexivity]|]);
  destruct Hi.

(** C9: whatever the middleware and the request, [dispatch] calls the
    downstream handler once, with the request it was given.  Before
    the call and after it, it performs the metric operations of its
    trace on the registry and changes nothing else: the clock and the
    state of the application are the caller's when the handler starts
    and the handler's when [dispatch] is done.  A response of the
    handler is returned as it is; when the handler raises, [dispatch]
    raises an exception of the same type, with the same arguments, and
    it raises in no other case. *)
Theorem dispatch_touches_registry_only self request downstream w :
  let x := run downstream (dispatch self request) w in
  exists w_in r0 w_out before after,
    downstream request w_in = (r0, w_out) /\
    run_trace x = before ++ Ev_call_next request :: after /\
    count is_call_next before = 0%nat /\
    count is_call_next after = 0%nat /\
    (forall request', In (Ev_call_next request') (run_trace x) ->
                      request' = request) /\
    w_in = {| registry := replay before (registry w);
              now := now w; app := app w |} /\
    run_world x = {| registry := replay after (registry w_out);
                     now := now w_out; app := app w_out |} /\
    match r0 with
    | Returned response => run_result x = Returned response
    | Raised e =>
        exists e', run_result x = Raised e' /\
                   type_name e' = type_name e /\
                   is_Exception e' = is_Exception e /\
                   args e' = args e
    end.
Proof.
  intros x. subst x.
  destruct (_is_path_filtered self (get_path_template request).2) eqn:Hf.
  - rewrite (run_dispatch_filtered _ _ downstream w Hf).
    destruct (downstream request w) as [r0 w_out] eqn:Hd.
    exists w, r0, w_out, [], []. split; [exact Hd|].
    split; [reflexivity|]. split; [reflexivity|]. split; [reflexivity|].
    split; [intros request' Hi; the_call Hi|].
    split; [destruct w; reflexivity|].
    split; [destruct w_out; reflexivity|].
    destruct r0 as [response|e]; [reflexivity|].
    exists e. repeat split.
  - pose proof (run_dispatch_recorded _ _ downstream w Hf) as E.
    cbn zeta in E.
    destruct (downstream request _) as [r0 w_out] eqn:Hd.
    rewrite E. clear E.
    destruct r0 as [response|e]; [|destruct (is_Exception e) eqn:He].
    all: eexists _, _, w_out, [_; _; _], _; split; [exact Hd|].
    all: split; [reflexivity|].
    all: split; [reflexivity|].
    all: split; [reflexivity|].
    all: split; [intros request' Hi; the_call Hi|].
    all: split; [reflexivity|].
    all: split; [reflexivity|].
    + reflexivity.
    + exists (from_None e). repeat split; exact He.
    + exists e. repeat split; exact He.
Qed.

(** ** The name prefix *)

(** Renamed programs run alike: same result, same events up to the
    names, same clock and application state. *)
Lemma renamed_run {A} (f : Metric -> Metric) (p q : Prog A) :
  renamed f p q ->
  forall downstream w w',
    registry_blind downstream -> now w = now w' -> app w = app w' ->
    run_result (run downstream q w') = run_result (run downstream p w) /\
    run_trace (run downstream q w') =
      map (on_event f) (run_trace (run downstream p w)) /\
    now (run_world (run downstream q w')) = now (run_world (run downstream p w)) /\
    app (run_world (run downstream q w')) = app (run_world (run downstream p w)).
Proof.
  induction 1 as [a | e | op k k' _ IH | k k' _ IH | request k k' _ IH];
    intros downstream w w' Hblind Hnow Happ.
  - cbn. repeat split; congruence.
  - cbn. repeat split; congruence.
  - cbn.
    specialize (IH downstream (update_registry (apply_op op) w)
                  (update_registry (apply_op (on_metric f op)) w')
                  Hblind Hnow Happ).
    destruct (run downstream k _) as [[r1 w1] tr1].
    destruct (run downstream k' _) as [[r2 w2] tr2].
    unfold run_result, run_trace, run_world in *. cbn in *.
    destruct IH as (-> & -> & -> & ->). repeat split.
  - cbn. rewrite <- Hnow.
    specialize (IH (now w) downstream w w' Hblind Hnow Happ).
    destruct (run downstream (k (now w)) w) as [[r1 w1] tr1].
    destruct (run downstream (k' (now w)) w') as [[r2 w2] tr2].
    unfold run_result, run_trace, run_world in *. cbn in *.
    destruct IH as (-> & -> & -> & ->). repeat split.
  - cbn.
    destruct (Hblind request w w' Hnow Happ) as (Hr & Hn & Ha).
    destruct (downstream request w) as [x1 v1].
    destruct (downstream request w') as [x2 v2].
    cbn in Hr, Hn, Ha. subst x2.
    specialize (IH x1 downstream v1 v2 Hblind Hn Ha).
    destruct (run downstream (k x1) v1) as [[r1 w1] tr1].
    destruct (run downstream (k' x1) v2) as [[r2 w2] tr2].
    unfold run_result, run_trace, run_world in *. cbn in *.
    destruct IH as (-> & -> & -> & ->). repeat split.
Qed.

Lemma renamed_step {A} (f : Metric -> Metric) op op' (k k' : Prog A) :
  op' = on_metric f op -> renamed f k k' ->
  renamed f (Metric_op op k) (Metric_op op' k').
Proof. intros ->. apply renamed_Metric_op. Qed.

(** C6: the constructor registers each of the five metrics under the
    prefix (the keyword [prefix], empty by default) followed by the
    name it has with the default prefix; kind, documentation and label
    names are those it has with the default prefix, and so is the
    filter option.  For every request, [dispatch] with the prefix is
    [dispatch] without it with the metrics renamed: the same operations
    on the same label sets with the same values; run against a handler
    that does not read the registry, both give the same result and the
    same events up to the metric names. *)
Theorem prefix_changes_metric_names_only (filter : bool) (prefix : string) :
  let plain := __init__ filter default_prefix in
  let self := __init__ filter prefix in
  map name [requests plain; responses plain; requests_processing_time plain;
            exceptions plain; requests_in_progress plain] =
    ["starlette_requests_total"; "starlette_responses_total";
     "starlette_requests_processing_time_seconds";
     "starlette_exceptions_total"; "starlette_requests_in_progress"] /\
  [requests self; responses self; requests_processing_time self;
   exceptions self; requests_in_progress self] =
    map (with_prefix prefix)
      [requests plain; responses plain; requests_processing_time plain;
       exceptions plain; requests_in_progress plain] /\
  (forall m, name (with_prefix prefix m) = prefix +:+ name m /\
             labelnames (with_prefix prefix m) = labelnames m /\
             kind (with_prefix prefix m) = kind m /\
             documentation (with_prefix prefix m) = documentation m) /\
  filter_unhandled_paths self = filter_unhandled_paths plain /\
  forall request,
    renamed (with_prefix prefix) (dispatch plain request) (dispatch self request) /\
    forall downstream w,
      registry_blind downstream ->
      let x := run downstream (dispatch plain request) w in
      let y := run downstream (dispatch self request) w in
      run_result y = run_result x /\
      run_trace y = map (on_event (with_prefix prefix)) (run_trace x).
Proof.
  intros plain self.
  split; [reflexivity|]. split; [reflexivity|].
  split; [intros m; repeat split|]. split; [reflexivity|].
  intros request.
  cut (renamed (with_prefix prefix) (dispatch plain request) (dispatch self request)).
  { intros Hren. split; [exact Hren|].
    intros downstream w Hblind x y.
    destruct (renamed_run _ _ _ Hren downstream w w Hblind eq_refl eq_refl)
      as (Hres & Htr & _).
    split; assumption. }
  subst plain self. unfold dispatch, default_prefix.
  destruct (get_path_template request) as [path_template is_handled_path].
  destruct (_is_path_filtered _ _) eqn:Hf.
  - replace (_is_path_filtered (__init__ filter prefix) is_handled_path)
      with true by (symmetry; exact Hf).
    apply renamed_Await_call_next. intros [response|e]; constructor.
  - replace (_is_path_filtered (__init__ filter prefix) is_handled_path)
      with false by (symmetry; exact Hf).
    cbn.
    apply renamed_step; [reflexivity|].
    apply renamed_step; [reflexivity|].
    apply renamed_Perf_counter. intros before_time.
    apply renamed_Await_call_next. intros [response|e]; cbn.
    + apply renamed_Perf_counter. intros after_time. cbn.
      apply renamed_step; [reflexivity|].
      apply renamed_step; [reflexivity|].
      apply renamed_step; [reflexivity|].
      constructor.
    + destruct (is_Exception e); cbn.
      * apply renamed_step; [reflexivity|].
        apply renamed_step; [reflexivity|].
        constructor.
      * apply renamed_step; [reflexivity|].
        constructor.
Qed.

End Dispatch.

(** * The test application, run *)

Section Runs.
Import Fixture.

(** [test_view_ok] *)
Example test_view_ok :
  let x := run application (dispatch middleware (get "/foo/")) start in
  let y := run application (dispatch middleware (get "/metrics/")) (run_world x) in
  let r := registry (run_world x) in
  sample r "starlette_requests_total" (GET "/foo/") = 1 /\
  sample r "starlette_responses_total" (GET "/foo/" ++ [("status_code", "200")]) = 1 /\
  sample r "starlette_requests_in_progress" (GET "/foo/") = 0 /\
  observed r "starlette_requests_processing_time_seconds" (GET "/foo/") = [7] /\
  run_result y = Returned (plain_text 200 "1").
Proof. vm_compute. repeat split. Qed.

(** [test_view_exception] *)
Example test_view_exception :
  let x := run application (dispatch middleware (get "/bar/")) start in
  let r := registry (run_world x) in
  run_result x = Raised (from_None (ValueError "bar")) /\
  sample r "starlette_requests_total" (GET "/bar/") = 1 /\
  sample r "starlette_exceptions_total"
    (GET "/bar/" ++ [("exception_type", "ValueError")]) = 1 /\
  sample r "starlette_requests_in_progress" (GET "/bar/") = 0.
Proof. vm_compute. repeat split. Qed.

(** [test_path_substituion] *)
Example test_path_substitution :
  let x := run application (dispatch middleware (get "/foo/baz/")) start in
  let r := registry (run_world x) in
  get_path_template (get "/foo/baz/") = ("/foo/{bar}/", true) /\
  run_result x = Returned (plain_text 200 "Foo: baz") /\
  sample r "starlette_requests_total" (GET "/foo/{bar}/") = 1 /\
  samples r !! ("starlette_requests_total", GET "/foo/baz/") = None.
Proof. vm_compute. repeat split. Qed.

(** [test_unhandled_paths] *)
Example test_unhandled_paths :
  let x := run application (dispatch middleware (get "/any/unhandled/path")) start in
  let r := registry (run_world x) in
  sample r "starlette_requests_total" (GET "/any/unhandled/path") = 1 /\
  sample r "starlette_responses_total"
    (GET "/any/unhandled/path" ++ [("status_code", "404")]) = 1 /\
  samples r !! ("starlette_requests_in_progress", GET "/any/unhandled/path")
    = Some 0.
Proof. vm_compute. repeat split. Qed.

(** [test_filter_unhandled_paths] *)
Example test_filter_unhandled_paths :
  let x := run application
             (dispatch filtering (get_metrics_only "/other/unhandled/path"))
             start in
  registry (run_world x) = registry start /\
  run_result x = Returned (plain_text 404 "Not Found").
Proof. vm_compute. repeat split. Qed.

(** [test_view_ok_with_prefix] *)
Example test_view_ok_with_prefix :
  let x := run application (dispatch prefixed (get "/foo/")) start in
  let r := registry (run_world x) in
  sample r "test_starlette_requests_total" (GET "/foo/") = 1 /\
  sample r "test_starlette_responses_total"
    (GET "/foo/" ++ [("status_code", "200")]) = 1 /\
  samples r !! ("test_starlette_requests_in_progress", GET "/foo/") = Some 0 /\
  samples r !! ("starlette_requests_total", GET "/foo/") = None.
Proof. vm_compute. repeat split. Qed.

End Runs.

(** * The theorems at the test application *)

Section Instances.
Import Fixture.

(** [GET /foo/] is not filtered, and its run has one increment and one
    decrement of the gauge of [GET /foo/]. *)
Lemma in_progress_inc_once_dec_once_foo :
  _is_path_filtered middleware (get_path_template (get "/foo/")).2 = false /\
  let x := run application (dispatch middleware (get "/foo/")) start in
  count (increments "starlette_requests_in_progress" (GET "/foo/")) (run_trace x) = 1%nat /\
  count (decrements "starlette_requests_in_progress" (GET "/foo/")) (run_trace x) = 1%nat.
Proof.
  split; [reflexivity|].
  pose proof (in_progress_inc_once_dec_once false default_prefix (get "/foo/")
                application start eq_refl) as (Hinc & Hdec & _).
  split; [exact Hinc | exact Hdec].
Defined.

(** [GET /bar/], whose view raises: increment, call, decrement. *)
Lemma gauge_inc_then_call_then_dec_bar :
  _is_path_filtered middleware (get_path_template (get "/bar/")).2 = false /\
  exists before after,
    run_trace (run application (dispatch middleware (get "/bar/")) start)
      = before ++ Ev_call_next (get "/bar/") :: after /\
    count (increments "starlette_requests_in_progress" (GET "/bar/")) before = 1%nat /\
    count (decrements "starlette_requests_in_progress" (GET "/bar/")) after = 1%nat.
Proof.
  split; [reflexivity|].
  destruct (gauge_inc_then_call_then_dec false default_prefix (get "/bar/")
              application start eq_refl)
    as (before & after & Htr & Hinc & _ & _ & _ & Hdec & _).
  exists before, after. repeat split; assumption.
Defined.

(** With the filter on and [/metrics/] as the only route, the view of
    [GET /cancelled/] raises and nothing is recorded. *)
Lemma filtered_error_propagates_unrecorded_cancelled :
  (get_path_template (get_metrics_only "/cancelled/")).2 = false /\
  application (get_metrics_only "/cancelled/") start =
    (Raised CancelledError, spend 2 "cancelled" start) /\
  run application (dispatch filtering (get_metrics_only "/cancelled/")) start =
    (Raised CancelledError, spend 2 "cancelled" start,
     [Ev_call_next (get_metrics_only "/cancelled/")]).
Proof.
  split; [reflexivity|]. split; [reflexivity|].
  exact (proj1 (filtered_error_propagates_unrecorded default_prefix
                  (get_metrics_only "/cancelled/") application
                  start CancelledError (spend 2 "cancelled" start)
                  eq_refl eq_refl)).
Defined.



(** [GET /any/unhandled/path] matches no route of the application; it
    is recorded as the same request is by an application that has a
    route of that very pattern. *)
Lemma unmatched_recorded_under_raw_path_unhandled :
  Forall (fun route => (matches route (scope (get "/any/unhandled/path"))).1 <> FULL)
         (app_routes (get "/any/unhandled/path")) /\
  get_path_template (get "/any/unhandled/path") = ("/any/unhandled/path", false) /\
  count (increments "starlette_requests_total" (GET "/any/unhandled/path"))
    (run_trace (run application
                  (dispatch middleware (get "/any/unhandled/path")) start))
    = 1%nat /\
  run_world (run application
               (dispatch middleware (get "/any/unhandled/path")) start) =
  run_world (run application
               (dispatch middleware
                  (request "GET" "/any/unhandled/path"
                     [exactly "/any/unhandled/path"])) start).
Proof.
  assert (Hall : Forall (fun route =>
              (matches route (scope (get "/any/unhandled/path"))).1 <> FULL)
            (app_routes (get "/any/unhandled/path")))
    by (repeat constructor; discriminate).
  split; [exact Hall|].
  destruct (unmatched_recorded_under_raw_path default_prefix _ Hall)
    as (Ht & _ & _ & Hrun).
  split; [exact Ht|].
  destruct (Hrun application start) as (Hcount & Hlike).
  split; [exact Hcount|].
  exact (proj1 (proj2 (Hlike
           (request "GET" "/any/unhandled/path" [exactly "/any/unhandled/path"])
           application eq_refl eq_refl (fun w0 => eq_refl)))).
Defined.

(** With the filter on, [GET /other/unhandled/path] goes straight to
    the handler; [GET /foo/] is dispatched as without the filter, its
    requests counter is incremented once, its gauge is decremented
    once and the response of the view is returned. *)
Lemma filter_unhandled_paths_bypasses_metrics_other :
  run application
      (dispatch filtering (get_metrics_only "/other/unhandled/path")) start =
    (Returned (plain_text 404 "Not Found"), spend 1 "not found" start,
     [Ev_call_next (get_metrics_only "/other/unhandled/path")]) /\
  dispatch filtering (get "/foo/") = dispatch middleware (get "/foo/") /\
  count (increments "starlette_requests_total" (GET "/foo/"))
    (run_trace (run application (dispatch filtering (get "/foo/")) start)) = 1%nat /\
  count (decrements "starlette_requests_in_progress" (GET "/foo/"))
    (run_trace (run application (dispatch filtering (get "/foo/")) start)) = 1%nat /\
  run_result (run application (dispatch filtering (get "/foo/")) start) =
    Returned (plain_text 200 "Foo").
Proof.
  split.
  - exact (proj1 (filter_unhandled_paths_bypasses_metrics default_prefix
                    (get_metrics_only "/other/unhandled/path"))
             eq_refl application start).
  - destruct (proj2 (filter_unhandled_paths_bypasses_metrics default_prefix
                       (get "/foo/")) eq_refl)
      as (_ & Hsame & _ & Hrun).
    split; [exact Hsame|].
    destruct (Hrun application start)
      as (_ & Hdec & Hreq & _ & _ & _ & _ & _ & Hout).
    split; [exact Hreq|]. split; [exact Hdec|].
    exact (proj1 Hout).
Defined.

(** ** Where the re-raised error is not the error as it was raised *)


End Instances.

(** * Beyond one request *)

Section Names.
Context {H : Host}.

(** ** Registered names *)

Lemma string_length_app (a b : string) :
  String.length (a +:+ b) = (String.length a + String.length b)%nat.
Proof. induction a as [|c a IH]; simpl; [reflexivity | f_equal; exact IH]. Qed.

Lemma string_drop_app (r b : string) :
  string_drop (String.length r) (r +:+ b) = b.
Proof. induction r as [|c r IH]; simpl; [destruct b; reflexivity | exact IH]. Qed.

Lemma string_app_nil_r (p : string) : p = p +:+ EmptyString.
Proof.
  induction p as [|c p IH]; [reflexivity|].
  change (String c p = String c (p +:+ EmptyString)). f_equal. exact IH.
Qed.

Lemma string_app_nil_length (r : string) : String.length r = 0%nat -> r = EmptyString.
Proof. destruct r; [reflexivity | discriminate]. Qed.

(** Two ways to cut one string: one head is a head of the other. *)
Lemma string_app_eq_split (p q a b : string) :
  p +:+ a = q +:+ b ->
  exists r, (q = p +:+ r /\ a = r +:+ b) \/ (p = q +:+ r /\ b = r +:+ a).
Proof.
  revert q. induction p as [|c p IH]; intros q E.
  - exists q. left. split; [reflexivity | exact E].
  - destruct q as [|d q].
    + exists (String c p). right. split; [reflexivity | symmetry; exact E].
    + cbn in E. injection E as -> E.
      destruct (IH q E) as [r [[-> ->] | [-> ->]]]; exists r; [left | right];
        split; reflexivity.
Qed.

(** No base name is another base name with something in front. *)
Lemma base_name_suffix (a b r : string) :
  a ∈ base_names -> b ∈ base_names -> a = r +:+ b -> r = EmptyString /\ a = b.
Proof.
  intros Ha Hb E.
  assert (Hd : b = string_drop (String.length a - String.length b) a).
  { pose proof (string_drop_app r b) as D.
    replace (String.length r)
      with (String.length (r +:+ b) - String.length b)%nat in D
      by (rewrite string_length_app; lia).
    rewrite <- E in D. symmetry. exact D. }
  assert (Hl : String.length a = (String.length r + String.length b)%nat)
    by (pose proof (string_length_app r b) as L; rewrite <- E in L; exact L).
  unfold base_names in Ha, Hb.
  repeat (apply elem_of_cons in Ha as [->|Ha]);
    try (apply elem_of_nil in Ha; destruct Ha);
    repeat (apply elem_of_cons in Hb as [->|Hb]);
    try (apply elem_of_nil in Hb; destruct Hb);
    vm_compute in Hd; try discriminate Hd;
    cbn in Hl; (split; [apply string_app_nil_length; lia | reflexivity]).
Qed.

Lemma prefixed_base_inj (p q a b : string) :
  a ∈ base_names -> b ∈ base_names -> p +:+ a = q +:+ b -> p = q /\ a = b.
Proof.
  intros Ha Hb E.
  destruct (string_app_eq_split _ _ _ _ E) as [r [[-> Er] | [-> Er]]].
  - destruct (base_name_suffix _ _ _ Ha Hb Er) as [-> ->].
    split; [apply string_app_nil_r | reflexivity].
  - destruct (base_name_suffix _ _ _ Hb Ha Er) as [-> ->].
    split; [symmetry; apply string_app_nil_r | reflexivity].
Qed.

Lemma metrics_names (filter : bool) (prefix : string) :
  map name (metrics (__init__ filter prefix)) = map (String.append prefix) base_names.
Proof. reflexivity. Qed.

(** X1: two metrics, of one instance or of two, have the same
    registered name exactly when the two prefixes are the same and the
    two metrics are the same attribute.  So the five names of an
    instance are pairwise distinct, and instances built with different
    prefixes share no name. *)
Theorem same_name_same_prefix_same_metric
    (f g : bool) (p q : string) (i j : nat) (m m' : Metric) :
  metrics (__init__ f p) !! i = Some m ->
  metrics (__init__ g q) !! j = Some m' ->
  name m = name m' <-> p = q /\ i = j.
Proof.
  intros Hi Hj.
  assert (Hni : map name (metrics (__init__ f p)) !! i = Some (name m))
    by (rewrite list_lookup_fmap, Hi; reflexivity).
  assert (Hnj : map name (metrics (__init__ g q)) !! j = Some (name m'))
    by (rewrite list_lookup_fmap, Hj; reflexivity).
  rewrite metrics_names in Hni, Hnj.
  rewrite list_lookup_fmap in Hni, Hnj.
  destruct (base_names !! i) as [a|] eqn:Ea; [|discriminate Hni].
  destruct (base_names !! j) as [b|] eqn:Eb; [|discriminate Hnj].
  cbn in Hni, Hnj. injection Hni as Hni. injection Hnj as Hnj.
  split.
  - intros E. rewrite <- Hni, <- Hnj in E.
    destruct (prefixed_base_inj p q a b) as [-> ->];
      [eapply list_elem_of_lookup_2; exact Ea
      |eapply list_elem_of_lookup_2; exact Eb | exact E |].
    split; [reflexivity|].
    assert (Hnd : NoDup base_names)
      by (apply (bool_decide_unpack _); vm_compute; exact I).
    exact (NoDup_lookup _ _ _ _ Hnd Ea Eb).
  - intros [-> ->]. rewrite Ea in Eb. injection Eb as ->. congruence.
Qed.

End Names.

(** Telling the series of one instance apart, and reading the registry
    after the operations of [dispatch]. *)
Ltac other_series :=
  match goal with
  | E : _ +:+ _ = _ +:+ _ |- _ => apply prefixed_inj in E; discriminate E
  | E : (_, _) = (_, _) |- _ => injection E; clear E; intros; other_series
  | E : _ ++ [_] = _ |- _ => discriminate E
  | E : _ = _ ++ [_] |- _ => discriminate E
  | E : _ :: _ = _ :: _ |- _ => discriminate E
  | E : ?a <> ?a |- _ => destruct (E eq_refl)
  end.

Ltac after_ops :=
  unfold run_world, run_result, run_trace, update_registry;
  cbn [fst snd registry now app __init__ name requests responses
       requests_processing_time exceptions requests_in_progress];
  repeat (first [ rewrite sample_Inc | rewrite sample_Dec
                 | rewrite sample_Observe | rewrite observed_Observe
                 | rewrite observed_Inc | rewrite observed_Dec
                 | rewrite observations_Inc | rewrite observations_Dec
                 | rewrite samples_Observe
                 | rewrite lookup_samples_Inc | rewrite lookup_samples_Dec ];
          cbn [name]).

Section Sequences.
Context {H : Host}.
Implicit Types (self : PrometheusMiddleware) (request : Request)
  (downstream : Downstream) (w : World).

(** ** One request, a quiet handler *)

Lemma recorded_false self request :
  recorded self request = false ->
  _is_path_filtered self (get_path_template request).2 = true.
Proof. unfold recorded. destruct (_is_path_filtered _ _); [reflexivity | discriminate]. Qed.

Lemma recorded_true self request :
  recorded self request = true ->
  _is_path_filtered self (get_path_template request).2 = false.
Proof. unfold recorded. destruct (_is_path_filtered _ _); [discriminate | reflexivity]. Qed.

(** A run against a quiet handler: the requests counter of the
    request's label set is one higher if the request is recorded, every
    other series of the counter and every series of the gauge has the
    value it had. *)
Lemma quiet_run_requests_gauge
    (filter : bool) (prefix : string) request downstream w l :
  quiet downstream ->
  let self := __init__ filter prefix in
  let final := registry (run_world (run downstream (dispatch self request) w)) in
  sample final (name (requests self)) l =
    sample (registry w) (name (requests self)) l +
    (if recorded self request && bool_decide (method_path request = l)
     then 1 else 0) /\
  sample final (name (requests_in_progress self)) l =
    sample (registry w) (name (requests_in_progress self)) l.
Proof.
  intros Hq self final. subst final.
  destruct (recorded self request) eqn:Hrec.
  - apply recorded_true in Hrec.
    pose proof (run_dispatch_recorded self request downstream w Hrec) as E.
    cbn zeta in E.
    match type of E with context [downstream request ?x] =>
      pose proof (Hq request x) as Hr;
      destruct (downstream request x) as [r0 w_out] end.
    rewrite E. clear E. cbn [snd] in Hr.
    unfold update_registry in Hr. cbn [registry] in Hr.
    subst self.
    destruct r0 as [response|e]; [|destruct (is_Exception e)].
    all: after_ops; rewrite Hr; after_ops.
    all: cbn [andb]; repeat case_decide; repeat case_bool_decide;
      try other_series; try congruence; split; lia.
  - apply recorded_false in Hrec.
    rewrite (run_dispatch_filtered self request downstream w Hrec).
    unfold run_world. cbn [fst snd andb]. rewrite Hq. split; lia.
Qed.

(** ** A sequence of requests *)

(** X2: after any sequence of requests served one after the other
    against a handler that leaves the registry alone, the requests
    counter of a label set has grown by the number of requests of the
    sequence that were recorded under that label set, and the in-flight
    gauge of every label set is back at the value it had. *)
Theorem serve_counts_requests
    (filter : bool) (prefix : string) downstream (reqs : list Request) w l :
  quiet downstream ->
  let self := __init__ filter prefix in
  let final := registry (serve self downstream reqs w) in
  sample final (name (requests self)) l =
    sample (registry w) (name (requests self)) l +
    Z.of_nat (length (recorded_under self l reqs)) /\
  sample final (name (requests_in_progress self)) l =
    sample (registry w) (name (requests_in_progress self)) l.
Proof.
  intros Hq self final. subst final. revert w.
  induction reqs as [|request rest IH]; intros w.
  - cbn. split; lia.
  - cbn [serve].
    destruct (IH (run_world (run downstream (dispatch self request) w)))
      as [IHr IHg].
    destruct (quiet_run_requests_gauge filter prefix request downstream w l Hq)
      as [Hr Hg].
    fold self in Hr, Hg. rewrite IHr, IHg, Hr, Hg.
    unfold recorded_under. cbn [List.filter].
    destruct (recorded self request && bool_decide (method_path request = l));
      cbn [length]; split; lia.
Qed.

(** X3: with [filter_unhandled_paths=True], a sequence of requests
    that no route matches, however long, leaves the registry of a
    handler that leaves it alone exactly as it was: no series is
    created and none changes. *)
Theorem serve_unmatched_filtered_keeps_registry
    (prefix : string) downstream (reqs : list Request) w :
  quiet downstream ->
  Forall (fun request => (get_path_template request).2 = false) reqs ->
  registry (serve (__init__ true prefix) downstream reqs w) = registry w.
Proof.
  intros Hq Hall. revert w.
  induction Hall as [|request rest Hun _ IH]; intros w; [reflexivity|].
  cbn [serve]. rewrite IH.
  rewrite run_dispatch_filtered by (rewrite Hun; reflexivity).
  unfold run_world. cbn [fst snd]. apply Hq.
Qed.

(** ** Which series come to exist *)

Lemma lookup_observations_Observe r m l v k :
  observations (apply_op (Observe m l v) r) !! k =
  if decide ((name m, l) = k) then Some (observed r (name m) l ++ [v])
  else observations r !! k.
Proof. cbn. apply lookup_insert. Qed.

(** A series that exists after a run against a quiet handler existed
    before, or the request was recorded and the series carries the
    template of the request. *)
Lemma quiet_run_new_series self request downstream w (k : Series) :
  quiet downstream ->
  let final := registry (run_world (run downstream (dispatch self request) w)) in
  is_Some (samples final !! k) \/ is_Some (observations final !! k) ->
  (is_Some (samples (registry w) !! k) \/ is_Some (observations (registry w) !! k)) \/
  (recorded self request = true /\
   ("path_template", (get_path_template request).1) ∈ k.2).
Proof.
  intros Hq final. subst final.
  destruct (recorded self request) eqn:Hrec.
  - apply recorded_true in Hrec.
    pose proof (run_dispatch_recorded self request downstream w Hrec) as E.
    cbn zeta in E.
    match type of E with context [downstream request ?x] =>
      pose proof (Hq request x) as Hr;
      destruct (downstream request x) as [r0 w_out] end.
    rewrite E. clear E. cbn [snd] in Hr.
    unfold update_registry in Hr. cbn [registry] in Hr.
    assert (Hin : forall extra,
               ("path_template", (get_path_template request).1)
                 ∈ method_path request ++ extra)
      by (intros extra; unfold method_path; set_solver).
    assert (Hin0 : ("path_template", (get_path_template request).1)
                     ∈ method_path request)
      by (unfold method_path; set_solver).
    destruct r0 as [response|e]; [|destruct (is_Exception e)].
    all: unfold run_world, update_registry; cbn [fst snd registry].
    all: repeat (first [ rewrite lookup_samples_Inc | rewrite lookup_samples_Dec
                       | rewrite lookup_observations_Observe
                       | rewrite observations_Inc | rewrite observations_Dec
                       | rewrite samples_Observe ]).
    all: rewrite Hr.
    all: repeat (first [ rewrite lookup_samples_Inc | rewrite lookup_samples_Dec
                       | rewrite lookup_observations_Observe
                       | rewrite observations_Inc | rewrite observations_Dec
                       | rewrite samples_Observe ]).
    all: repeat case_decide; subst; cbn [snd];
      try (right; split; [reflexivity | first [apply Hin0 | apply Hin]]).
    all: intros Hk; left; exact Hk.
  - intros Hk. left. apply recorded_false in Hrec.
    rewrite (run_dispatch_filtered self request downstream w Hrec) in Hk.
    unfold run_world in Hk. cbn [fst snd] in Hk. rewrite Hq in Hk. exact Hk.
Qed.

(** X4: with [filter_unhandled_paths=True] the label cardinality is
    bounded by the routes.  After any sequence of requests against a
    handler that leaves the registry alone, every series that exists,
    counter, gauge or histogram, existed before the sequence or
    carries as its [path_template] the pattern of a route that one of
    the requests matched in full. *)
Theorem filtered_series_carry_route_patterns
    (prefix : string) downstream (reqs : list Request) w (k : Series) :
  quiet downstream ->
  let final := registry (serve (__init__ true prefix) downstream reqs w) in
  is_Some (samples final !! k) \/ is_Some (observations final !! k) ->
  (is_Some (samples (registry w) !! k) \/ is_Some (observations (registry w) !! k)) \/
  exists request route,
    request ∈ reqs /\ route ∈ app_routes request /\
    (matches route (scope request)).1 = FULL /\
    ("path_template", path route) ∈ k.2.
Proof.
  intros Hq final. subst final. revert w.
  induction reqs as [|request rest IH]; intros w Hk.
  - left. exact Hk.
  - cbn [serve] in Hk. apply IH in Hk.
    destruct Hk as [Hk | (request' & route & Hr & Hroute & Hfull & Hl)].
    + apply (quiet_run_new_series _ _ _ _ _ Hq) in Hk.
      destruct Hk as [Hk | [Hrec Hl]]; [left; exact Hk|].
      right. apply recorded_true in Hrec.
      destruct (get_path_template_from_first (app_routes request) request)
        as [(before & route & after & Hroutes & _ & Hfull & Ht) | [_ Ht]].
      * exists request, route.
        split; [set_solver|]. split; [rewrite Hroutes; set_solver|].
        split; [exact Hfull|].
        unfold get_path_template in Hl. rewrite Ht in Hl. exact Hl.
      * unfold get_path_template in Hrec. rewrite Ht in Hrec. discriminate Hrec.
    + right. exists request', route. split; [set_solver|]. auto.
Qed.

(** ** Which series one request can change *)

(** X5: [dispatch] writes at most five series, all of them labelled
    with the method and the template of the request: the gauge, the
    requests counter, the histogram, and the responses counter of the
    status code or the exceptions counter of the exception type.  Any
    other series, of these metrics or of others, and so every series
    with another method or another template, is when the handler is
    called what the caller had, and at the end what the handler
    left. *)
Theorem dispatch_leaves_other_series self request downstream w :
  let l := method_path request in
  let x := run downstream (dispatch self request) w in
  exists w_in r0 w_out,
    downstream request w_in = (r0, w_out) /\
    forall k : Series,
      k <> (name (requests_in_progress self), l) ->
      k <> (name (requests self), l) ->
      k <> (name (requests_processing_time self), l) ->
      (forall response, r0 = Returned response ->
         k <> (name (responses self),
               l ++ [("status_code", pretty (status_code response))])) ->
      (forall e, r0 = Raised e ->
         k <> (name (exceptions self), l ++ [("exception_type", type_name e)])) ->
      samples (registry w_in) !! k = samples (registry w) !! k /\
      observations (registry w_in) !! k = observations (registry w) !! k /\
      samples (registry (run_world x)) !! k = samples (registry w_out) !! k /\
      observations (registry (run_world x)) !! k =
        observations (registry w_out) !! k.
Proof.
  intros l x. subst x.
  destruct (recorded self request) eqn:Hrec.
  - apply recorded_true in Hrec.
    pose proof (run_dispatch_recorded self request downstream w Hrec) as E.
    cbn zeta in E. fold l in E.
    destruct (downstream request _) as [r0 w_out] eqn:Hd.
    eexists _, r0, w_out. split; [exact Hd|].
    rewrite E. clear E.
    intros k Hg Hr Hh Hresp Hexc.
    destruct r0 as [response|e]; [|destruct (is_Exception e)].
    all: try specialize (Hresp _ eq_refl); try specialize (Hexc _ eq_refl).
    all: unfold run_world, update_registry; cbn [fst snd registry].
    all: repeat (first [ rewrite lookup_samples_Inc | rewrite lookup_samples_Dec
                       | rewrite lookup_observations_Observe
                       | rewrite observations_Inc | rewrite observations_Dec
                       | rewrite samples_Observe ]).
    all: repeat case_decide;
      try (exfalso;
           solve [ apply Hg; symmetry; assumption
                 | apply Hr; symmetry; assumption
                 | apply Hh; symmetry; assumption
                 | apply Hresp; symmetry; assumption
                 | apply Hexc; symmetry; assumption ]);
      repeat split.
  - apply recorded_false in Hrec.
    rewrite (run_dispatch_filtered self request downstream w Hrec).
    destruct (downstream request w) as [r0 w_out] eqn:Hd.
    exists w, r0, w_out. split; [exact Hd|].
    intros k _ _ _ _ _. repeat split.
Qed.

(** ** The calls [prometheus_client] receives *)

(** X6: every registry call [dispatch] makes is one the metric
    accepts: the keywords given to [.labels] are the label names the
    constructor declared for that metric, in that order; [.inc()] goes
    to a counter or to the gauge, [.dec()] to the gauge, [.observe()]
    to the histogram. *)
Theorem dispatch_calls_accepted
    (filter : bool) (prefix : string) request downstream w :
  forallb event_accepted
    (run_trace (run downstream (dispatch (__init__ filter prefix) request) w))
  = true.
Proof.
  destruct (recorded (__init__ filter prefix) request) eqn:Hrec.
  - apply recorded_true in Hrec.
    pose proof (run_dispatch_recorded _ request downstream w Hrec) as E.
    cbn zeta in E.
    destruct (downstream request _) as [r0 w_out].
    rewrite E. clear E.
    destruct r0 as [response|e]; [|destruct (is_Exception e)]; reflexivity.
  - apply recorded_false in Hrec.
    rewrite (run_dispatch_filtered _ request downstream w Hrec). reflexivity.
Qed.

(** ** One request, one outcome *)


(** ** Routes registered later *)

Lemma get_path_template_from_app (routes more : list Route) request :
  get_path_template_from (routes ++ more) request =
  if (get_path_template_from routes request).2
  then get_path_template_from routes request
  else get_path_template_from more request.
Proof.
  induction routes as [|route rest IH]; cbn; [reflexivity|].
  destruct (matches route (scope request)) as [[] child_scope]; cbn;
    [exact IH | exact IH | reflexivity].
Qed.

(** X8: registering more routes after those the application has does
    not change the template of a request that one of the earlier routes
    matches in full; a request that none of them matches gets the
    answer of the scan over the new routes alone. *)
Theorem routes_registered_later (more : list Route) request :
  ((get_path_template request).2 = true ->
   get_path_template (registering more request) = get_path_template request) /\
  ((get_path_template request).2 = false ->
   get_path_template (registering more request) =
   get_path_template_from more request).
Proof.
  unfold get_path_template, registering. cbn [app_routes].
  assert (Hsame : forall rs,
             get_path_template_from rs
               {| method := method request; url_path := url_path request;
                  scope := scope request;
                  app_routes := app_routes request ++ more |} =
             get_path_template_from rs request)
    by (induction rs as [|route rest IH]; cbn; [reflexivity | rewrite IH; reflexivity]).
  rewrite Hsame, get_path_template_from_app.
  split; intros ->; reflexivity.
Qed.

(** ** Two instances in one registry *)

Lemma metric_name_base (g : bool) (q : string) (m : Metric) :
  m ∈ metrics (__init__ g q) ->
  exists b, b ∈ base_names /\ name m = q +:+ b.
Proof.
  unfold metrics. intros Hm.
  repeat (apply elem_of_cons in Hm as [->|Hm]);
    [..|apply elem_of_nil in Hm; destruct Hm];
    eexists; (split; [|reflexivity]); unfold base_names;
    repeat first [apply list_elem_of_here | apply list_elem_of_further].
Qed.

End Sequences.

Ltac in_base :=
  first [ assumption
        | unfold base_names;
          repeat first [apply list_elem_of_here | apply list_elem_of_further] ].

(** A name of the instance under [p] is no name of the instance under
    [q], given [Hpq : p <> q]. *)
Ltac other_instance Hpq :=
  match goal with
  | E : (_, _) = (_, _) |- _ => injection E; clear E; intros; other_instance Hpq
  | E : ?p +:+ ?a = ?q +:+ ?b |- _ =>
      first [ apply prefixed_inj in E; discriminate E
            | let Ha := fresh "Ha" in
              let Hb := fresh "Hb" in
              assert (Ha : a ∈ base_names) by in_base;
              assert (Hb : b ∈ base_names) by in_base;
              destruct (prefixed_base_inj p q a b Ha Hb E) as [E' _];
              first [destruct (Hpq E') | destruct (Hpq (eq_sym E'))] ]
  | E : _ ++ [_] = _ |- _ => discriminate E
  | E : _ = _ ++ [_] |- _ => discriminate E
  | E : ?a <> ?a |- _ => destruct (E eq_refl)
  end.

Section Instances2.
Context {H : Host}.
Implicit Types (self : PrometheusMiddleware) (request : Request)
  (downstream : Downstream) (w : World).

(** X9: an instance built with one prefix never writes a series of an
    instance built with another prefix.  Whatever the request and the
    handler, every series of every metric of the other instance is, when
    the handler is called, what the caller had, and at the end what the
    handler left. *)
Theorem other_prefix_untouched
    (f g : bool) (p q : string) request downstream w :
  p <> q ->
  let x := run downstream (dispatch (__init__ f p) request) w in
  exists w_in r0 w_out,
    downstream request w_in = (r0, w_out) /\
    forall (m : Metric) (l : Labels),
      m ∈ metrics (__init__ g q) ->
      samples (registry w_in) !! (name m, l) = samples (registry w) !! (name m, l) /\
      observations (registry w_in) !! (name m, l) =
        observations (registry w) !! (name m, l) /\
      samples (registry (run_world x)) !! (name m, l) =
        samples (registry w_out) !! (name m, l) /\
      observations (registry (run_world x)) !! (name m, l) =
        observations (registry w_out) !! (name m, l).
Proof.
  intros Hpq x. subst x.
  destruct (recorded (__init__ f p) request) eqn:Hrec.
  - apply recorded_true in Hrec.
    pose proof (run_dispatch_recorded _ request downstream w Hrec) as E.
    cbn zeta in E.
    destruct (downstream request _) as [r0 w_out] eqn:Hd.
    eexists _, r0, w_out. split; [exact Hd|].
    rewrite E. clear E.
    intros m l Hm.
    destruct (metric_name_base g q m Hm) as (b & Hb & ->).
    destruct r0 as [response|e]; [|destruct (is_Exception e)].
    all: unfold run_world, update_registry;
      cbn [fst snd registry __init__ name requests responses
           requests_processing_time exceptions requests_in_progress].
    all: repeat (first [ rewrite lookup_samples_Inc | rewrite lookup_samples_Dec
                       | rewrite lookup_observations_Observe
                       | rewrite observations_Inc | rewrite observations_Dec
                       | rewrite samples_Observe ]; cbn [name]).
    all: repeat (case_decide; try other_instance Hpq); repeat split.
  - apply recorded_false in Hrec.
    rewrite (run_dispatch_filtered _ request downstream w Hrec).
    destruct (downstream request w) as [r0 w_out] eqn:Hd.
    exists w, r0, w_out. split; [exact Hd|].
    intros m l _. repeat split.
Qed.

End Instances2.

Section SampleReads.
Context {H : Host}.

Lemma sample_Inc_eq r m l :
  sample (apply_op (Inc m l) r) (name m) l = sample r (name m) l + 1.
Proof. rewrite sample_Inc. case_decide; [reflexivity | congruence]. Qed.

Lemma sample_Inc_ne r m l n l' :
  (name m, l) <> (n, l') ->
  sample (apply_op (Inc m l) r) n l' = sample r n l'.
Proof. intros Hne. rewrite sample_Inc. case_decide; [congruence | reflexivity]. Qed.

Lemma sample_Dec_eq r m l :
  sample (apply_op (Dec m l) r) (name m) l = sample r (name m) l - 1.
Proof. rewrite sample_Dec. case_decide; [reflexivity | congruence]. Qed.

Lemma sample_Dec_ne r m l n l' :
  (name m, l) <> (n, l') ->
  sample (apply_op (Dec m l) r) n l' = sample r n l'.
Proof. intros Hne. rewrite sample_Dec. case_decide; [congruence | reflexivity]. Qed.

End SampleReads.

(** Reading one series through the operations of two instances, given
    [Hpq : p <> q] for their prefixes. *)
Ltac read_samples Hpq :=
  repeat first
    [ rewrite sample_Observe
    | rewrite sample_Inc_eq
    | rewrite sample_Dec_eq
    | rewrite sample_Inc_ne by (let E := fresh "E" in intros E; other_instance Hpq)
    | rewrite sample_Dec_ne by (let E := fresh "E" in intros E; other_instance Hpq) ].

Section Stacked.
Context {H : Host}.
Implicit Types (request : Request) (downstream : Downstream) (w : World).

(** X10: two instances with different prefixes, one in front of the
    other, both record a request that neither filters.  The innermost
    handler is called in the world where the gauge and the requests
    counter of the request have been incremented for both instances,
    so it sees both in-flight gauges one higher; the clock, the
    application state and the outcome at the end are those of that
    call.  The outer gauge is incremented once and decremented once;
    if the handler leaves the registry alone, at the end both requests
    counters are one higher and both gauges are back. *)
Theorem stacked_instances_both_record
    (f g : bool) (p q : string) request downstream w :
  p <> q ->
  quiet downstream ->
  recorded (__init__ f p) request = true ->
  recorded (__init__ g q) request = true ->
  let outer := __init__ f p in
  let inner := __init__ g q in
  let l := method_path request in
  let w_in :=
    {| registry :=
         apply_op (Inc (requests inner) l)
           (apply_op (Inc (requests_in_progress inner) l)
              (apply_op (Inc (requests outer) l)
                 (apply_op (Inc (requests_in_progress outer) l) (registry w))));
       now := now w;
       app := app w |} in
  let r0 := (downstream request w_in).1 in
  let w_out := (downstream request w_in).2 in
  let x := run (behind inner downstream) (dispatch outer request) w in
  let final := registry (run_world x) in
  now (run_world x) = now w_out /\
  app (run_world x) = app w_out /\
  match r0 with
  | Returned response => run_result x = Returned response
  | Raised e =>
      run_result x = Raised (if is_Exception e then from_None e else e)
  end /\
  count (increments (name (requests_in_progress outer)) l) (run_trace x) = 1%nat /\
  count (decrements (name (requests_in_progress outer)) l) (run_trace x) = 1%nat /\
  sample (registry w_in) (name (requests_in_progress outer)) l =
    sample (registry w) (name (requests_in_progress outer)) l + 1 /\
  sample (registry w_in) (name (requests_in_progress inner)) l =
    sample (registry w) (name (requests_in_progress inner)) l + 1 /\
  sample final (name (requests outer)) l =
    sample (registry w) (name (requests outer)) l + 1 /\
  sample final (name (requests inner)) l =
    sample (registry w) (name (requests inner)) l + 1 /\
  sample final (name (requests_in_progress outer)) l =
    sample (registry w) (name (requests_in_progress outer)) l /\
  sample final (name (requests_in_progress inner)) l =
    sample (registry w) (name (requests_in_progress inner)) l.
Proof.
  intros Hpq Hq Ho Hi outer inner l w_in r0 w_out x final.
  apply recorded_true in Ho. apply recorded_true in Hi.
  pose proof (run_dispatch_recorded outer request (behind inner downstream) w Ho)
    as E.
  cbn zeta in E. fold l in E.
  match type of E with context [behind inner downstream request ?y] =>
    pose proof (run_dispatch_recorded inner request downstream y Hi) as E';
    change (behind inner downstream request y)
      with (run_result (run downstream (dispatch inner request) y),
            run_world (run downstream (dispatch inner request) y)) in E
  end.
  cbn zeta in E'. fold l in E'.
  match type of E' with context [downstream request ?y] =>
    change y with w_in in E'
  end.
  pose proof (Hq request w_in) as Hr.
  fold x in E. subst final r0 w_out.
  destruct (downstream request w_in) as [r0 w_out] eqn:Hd.
  cbn [fst snd] in Hr |- *.
  rewrite E' in E. clear E'. rewrite E. clear E x.
  subst w_in. cbn [registry] in Hr.
  clearbody l. subst outer inner.
  destruct r0 as [response|e]; [|destruct (is_Exception e) eqn:He].
  all: unfold run_result, run_world; cbn [fst snd from_None is_Exception];
    rewrite ?He.
  all: split; [reflexivity|]. 
  all: split; [reflexivity|].
  all: split; [reflexivity|].
  all: split; [unfold count, run_trace, increments; cbn;
               repeat (case_bool_decide; cbn; try other_series); reflexivity|].
  all: split; [unfold count, run_trace, decrements; cbn;
               repeat (case_bool_decide; cbn; try other_series); reflexivity|].
  all: unfold update_registry;
    cbn [fst snd registry now app __init__ name requests responses
         requests_processing_time exceptions requests_in_progress].
  all: repeat split; read_samples Hpq; rewrite ?Hr; read_samples Hpq;
    cbn [__init__ name requests requests_in_progress]; lia.
Qed.

End Stacked.

(** ** Durations *)

Section Ticks.
Context (state : Type).
#[local] Abbreviation ticks := (tick_host state).

(** X11: on a clock of whole ticks that the downstream handler never
    sets back, every value [dispatch] hands to the histogram is zero
    or more. *)
Theorem durations_nonnegative
    (self : PrometheusMiddleware) (request : Request)
    (downstream : Downstream (H := ticks)) (w : World (H := ticks)) :
  (forall r (w0 : World (H := ticks)), now w0 <= now (downstream r w0).2) ->
  forall m l (v : Z),
    In (Ev_metric (Observe (H := ticks) m l v))
       (run_trace (run downstream (dispatch self request) w)) ->
    0 <= v.
Proof.
  intros Hmono m l v Hin.
  destruct (recorded self request) eqn:Hrec.
  - apply recorded_true in Hrec.
    pose proof (run_dispatch_recorded self request downstream w Hrec) as E.
    cbn zeta in E.
    match type of E with context [downstream request ?x] =>
      pose proof (Hmono request x) as Hm;
      destruct (downstream request x) as [r0 w_out] end.
    rewrite E in Hin. clear E. cbn [snd] in Hm.
    destruct r0 as [response|e]; [|destruct (is_Exception e)].
    all: unfold run_trace in Hin; cbn [snd In] in Hin.
    all: repeat (destruct Hin as [Hin|Hin];
                 [first [discriminate Hin | injection Hin as _ _ <-]|]);
      try destruct Hin.
    cbn in *. lia.
  - apply recorded_false in Hrec.
    rewrite (run_dispatch_filtered self request downstream w Hrec) in Hin.
    unfold run_trace in Hin. cbn [snd In] in Hin.
    destruct Hin as [Hin|[]]. discriminate Hin.
Qed.

End Ticks.

(** * The further theorems at the test application *)

Section MoreInstances.
Import Fixture Scenario.

(** The requests counter of [prefixed] and that of an instance with
    the same prefix and the filter on have the same name. *)
Lemma same_name_same_prefix_same_metric_test :
  metrics prefixed !! 0%nat = Some (requests prefixed) /\
  metrics (__init__ true "test_") !! 0%nat = Some (requests (__init__ true "test_")) /\
  (name (requests prefixed) = name (requests (__init__ true "test_")) <->
   "test_" = "test_" /\ 0%nat = 0%nat).
Proof.
  split; [reflexivity|]. split; [reflexivity|].
  exact (same_name_same_prefix_same_metric false true "test_" "test_" 0 0
           _ _ eq_refl eq_refl).
Defined.

(** Three requests, two of them for [/foo/]. *)
Lemma serve_counts_requests_foo :
  quiet always_ok /\
  sample (registry (serve middleware always_ok
                      [get "/foo/"; get "/foo/baz/"; get "/foo/"] start))
    "starlette_requests_total" (GET "/foo/") = 2 /\
  sample (registry (serve middleware always_ok
                      [get "/foo/"; get "/foo/baz/"; get "/foo/"] start))
    "starlette_requests_in_progress" (GET "/foo/") = 0.
Proof.
  split; [intros request w; reflexivity|].
  exact (serve_counts_requests false default_prefix always_ok
           [get "/foo/"; get "/foo/baz/"; get "/foo/"] start (GET "/foo/")
           (fun request w => eq_refl)).
Defined.

(** Two requests that the filter-test application does not route. *)
Lemma serve_unmatched_filtered_keeps_registry_junk :
  quiet always_ok /\
  Forall (fun request => (get_path_template request).2 = false)
    [get_metrics_only "/a"; get_metrics_only "/b"] /\
  registry (serve filtering always_ok
              [get_metrics_only "/a"; get_metrics_only "/b"] start)
  = registry start.
Proof.
  split; [intros request w; reflexivity|].
  split; [repeat constructor|].
  apply (serve_unmatched_filtered_keeps_registry default_prefix always_ok
           [get_metrics_only "/a"; get_metrics_only "/b"] start
           (fun request w => eq_refl)).
  repeat constructor.
Defined.

(** With the filter on, the requests counter series that [GET
    /foo/baz/] leaves carries the pattern of the route that matched. *)
Lemma filtered_series_carry_route_patterns_foobar :
  quiet always_ok /\
  is_Some (samples (registry (serve filtering always_ok [get "/foo/baz/"] start))
             !! ("starlette_requests_total", GET "/foo/{bar}/")) /\
  ((is_Some (samples (registry start)
               !! ("starlette_requests_total", GET "/foo/{bar}/")) \/
    is_Some (observations (registry start)
               !! ("starlette_requests_total", GET "/foo/{bar}/"))) \/
   exists request route,
     request ∈ [get "/foo/baz/"] /\ route ∈ app_routes request /\
     (matches route (scope request)).1 = FULL /\
     ("path_template", path route) ∈ GET "/foo/{bar}/").
Proof.
  assert (Hs : is_Some (samples (registry (serve filtering always_ok
                                             [get "/foo/baz/"] start))
                          !! ("starlette_requests_total", GET "/foo/{bar}/")))
    by (exists 1; vm_compute; reflexivity).
  split; [intros request w; reflexivity|].
  split; [exact Hs|].
  exact (filtered_series_carry_route_patterns default_prefix always_ok
           [get "/foo/baz/"] start ("starlette_requests_total", GET "/foo/{bar}/")
           (fun request w => eq_refl) (or_introl Hs)).
Defined.


(** [middleware] does not write the series of [outer]. *)
Lemma other_prefix_untouched_outer :
  default_prefix <> "outer_" /\
  exists w_in r0 w_out,
    application (get "/foo/") w_in = (r0, w_out) /\
    samples (registry (run_world (run application
                                    (dispatch middleware (get "/foo/")) start)))
      !! ("outer_starlette_requests_total", GET "/foo/") =
    samples (registry w_out) !! ("outer_starlette_requests_total", GET "/foo/").
Proof.
  assert (Hne : default_prefix <> "outer_") by discriminate.
  split; [exact Hne|].
  destruct (other_prefix_untouched false false default_prefix "outer_"
              (get "/foo/") application start Hne)
    as (w_in & r0 & w_out & Hd & Hkeep).
  exists w_in, r0, w_out. split; [exact Hd|].
  exact (proj1 (proj2 (proj2
           (Hkeep (requests outer) (GET "/foo/") (list_elem_of_here _ _))))).
Defined.

(** [outer] in front of [middleware] in front of a quiet view. *)
Lemma stacked_instances_both_record_foo :
  "outer_" <> default_prefix /\
  quiet always_ok /\
  recorded outer (get "/foo/") = true /\
  recorded middleware (get "/foo/") = true /\
  run_result (run (behind middleware always_ok) (dispatch outer (get "/foo/")) start)
    = Returned (plain_text 200 "ok") /\
  count (increments "outer_starlette_requests_in_progress" (GET "/foo/"))
    (run_trace (run (behind middleware always_ok) (dispatch outer (get "/foo/")) start))
    = 1%nat /\
  sample (registry (run_world (run (behind middleware always_ok)
                                 (dispatch outer (get "/foo/")) start)))
    "starlette_requests_total" (GET "/foo/") = 1.
Proof.
  assert (Hne : "outer_" <> default_prefix) by discriminate.
  split; [exact Hne|]. split; [intros request w; reflexivity|].
  split; [reflexivity|]. split; [reflexivity|].
  destruct (stacked_instances_both_record false false "outer_" default_prefix
              (get "/foo/") always_ok start Hne (fun request w => eq_refl)
              eq_refl eq_refl)
    as (_ & _ & Hres & Hinc & _ & _ & _ & _ & Hreq & _).
  split; [exact Hres|]. split; [exact Hinc | exact Hreq].
Defined.

(** A view that takes no time: the value observed for [GET /foo/] is
    zero. *)
Lemma durations_nonnegative_foo :
  (forall r (w0 : World), now w0 <= now (always_ok r w0).2) /\
  In (Ev_metric (Observe (requests_processing_time middleware) (GET "/foo/") 0))
     (run_trace (run always_ok (dispatch middleware (get "/foo/")) start)) /\
  0 <= 0.
Proof.
  assert (Hin : In (Ev_metric (Observe (requests_processing_time middleware)
                                 (GET "/foo/") 0))
                  (run_trace (run always_ok (dispatch middleware (get "/foo/")) start)))
    by (vm_compute; tauto).
  split; [intros r w0; apply Z.le_refl|].
  split; [exact Hin|].
  exact (durations_nonnegative (list string) middleware (get "/foo/") always_ok
           start (fun r w0 => Z.le_refl _) _ _ _ Hin).
Defined.

End MoreInstances.
